(** * The data custody layer of the X-ray management system

    A shallow embedding of [src/database/database_manager.py]
    ([DatabaseManager]) and [src/security/auth_manager.py] ([AuthManager]),
    and the properties of the custody-layer specification checked against
    them.

    Conventions of the embedding.
    - A Python [str] that is only stored, compared or concatenated (user
      names, roles, permission names, SQL [TEXT] cells) is a [string].  A
      [str] on which the code calls [.encode()] is a [pystr], a list of
      Unicode code points, so that encoding can fail the way it does in
      Python.
    - [bytes] are [list byte].
    - The SQLite file is a record of tables, each a list of rows in insertion
      order; the key file lives in a small file system, a finite map from
      paths to nodes.
    - A method that may raise returns a [result]; a method that reads or
      writes the database or the object takes the state and returns the new
      one.
    - The libraries the code imports ([cryptography.fernet], [json],
      [bcrypt]) are not part of the repository: they are interfaces
      ([FernetLib], [JsonLib], [BcryptLib]) and every definition is
      parametric in them. *)

From Stdlib Require Import ZArith NArith Lia.
From Stdlib.Strings Require Import Byte.
From stdpp Require Import gmap strings list sorting pretty.

#[global] Instance byte_eq_dec : EqDecision byte := Byte.byte_eq_dec.

(** ** UTF-8, the codec behind [str.encode()] and [bytes.decode()] *)

Module Utf8.

(** A code point; a Python [str] holds values up to [0x10FFFF], lone
    surrogates included. *)
Abbreviation codepoint := N (only parsing).
Abbreviation pystr := (list N) (only parsing).

Definition byte_of_N (n : N) : byte := default "000"%byte (Byte.of_N n).

Definition is_surrogate (c : codepoint) : bool :=
  ((0xD800 <=? c) && (c <=? 0xDFFF))%N.

(** The bytes of one code point; [None] is [UnicodeEncodeError]
    (surrogates cannot be encoded by the strict error handler). *)
Definition encode_codepoint (c : codepoint) : option (list byte) :=
  if (c <? 0x80)%N then Some [byte_of_N c]
  else if (c <? 0x800)%N then
    Some [byte_of_N (0xC0 + c / 64); byte_of_N (0x80 + c mod 64)]
  else if (c <? 0x10000)%N then
    if is_surrogate c then None
    else Some [byte_of_N (0xE0 + c / 4096);
               byte_of_N (0x80 + (c / 64) mod 64);
               byte_of_N (0x80 + c mod 64)]
  else if (c <? 0x110000)%N then
    Some [byte_of_N (0xF0 + c / 262144);
          byte_of_N (0x80 + (c / 4096) mod 64);
          byte_of_N (0x80 + (c / 64) mod 64);
          byte_of_N (0x80 + c mod 64)]
  else None.

Fixpoint encode (s : pystr) : option (list byte) :=
  match s with
  | [] => Some []
  | c :: s' =>
      match encode_codepoint c, encode s' with
      | Some bs, Some rest => Some (bs ++ rest)
      | _, _ => None
      end
  end.

(** The payload of a continuation byte [10xxxxxx]. *)
Definition continuation (b : byte) : option N :=
  let n := Byte.to_N b in
  if ((0x80 <=? n) && (n <? 0xC0))%N then Some (n - 0x80)%N else None.

(** The strict decoder: overlong forms, surrogates, values above
    [0x10FFFF] and truncated sequences are [UnicodeDecodeError] ([None]). *)
Fixpoint decode (bs : list byte) : option pystr :=
  match bs with
  | [] => Some []
  | b0 :: r0 =>
      let n0 := Byte.to_N b0 in
      if (n0 <? 0x80)%N then cons n0 <$> decode r0
      else if (n0 <? 0xC2)%N then None
      else if (n0 <? 0xE0)%N then
        match r0 with
        | b1 :: r1 =>
            match continuation b1 with
            | Some x1 => cons ((n0 - 0xC0) * 64 + x1)%N <$> decode r1
            | None => None
            end
        | _ => None
        end
      else if (n0 <? 0xF0)%N then
        match r0 with
        | b1 :: b2 :: r2 =>
            match continuation b1, continuation b2 with
            | Some x1, Some x2 =>
                let c := ((n0 - 0xE0) * 4096 + x1 * 64 + x2)%N in
                if (c <? 0x800)%N || is_surrogate c then None
                else cons c <$> decode r2
            | _, _ => None
            end
        | _ => None
        end
      else if (n0 <? 0xF5)%N then
        match r0 with
        | b1 :: b2 :: b3 :: r3 =>
            match continuation b1, continuation b2, continuation b3 with
            | Some x1, Some x2, Some x3 =>
                let c := ((n0 - 0xF0) * 262144 + x1 * 4096 + x2 * 64 + x3)%N in
                if (c <? 0x10000)%N || (0x10FFFF <? c)%N then None
                else cons c <$> decode r3
            | _, _, _ => None
            end
        | _ => None
        end
      else None
  end.

(** The text every [encode] accepts: Unicode scalar values. *)
Definition scalar (c : codepoint) : Prop :=
  (c < 0x110000)%N ∧ is_surrogate c = false.

End Utf8.

(** ** Exceptions, results, and the state-and-exception monad *)

Inductive exn : Set :=
  | KeyError | TypeError | ValueError | OverflowError | OSError
  | UnicodeEncodeError | UnicodeDecodeError | JSONDecodeError
  | InvalidToken | IntegrityError.

Inductive result (A : Type) : Type :=
  | Ok (a : A)
  | Raise (e : exn).
Arguments Ok {A} a.
Arguments Raise {A} e.

(** A method body over a state [S]: it returns or raises, and leaves a
    state. *)
Definition M (S A : Type) : Type := S → result A * S.

Definition ret {S A} (a : A) : M S A := λ s, (Ok a, s).
Definition raise {S A} (e : exn) : M S A := λ s, (Raise e, s).
Definition bind {S A B} (m : M S A) (k : A → M S B) : M S B :=
  λ s, match m s with
       | (Ok a, s') => k a s'
       | (Raise e, s') => (Raise e, s')
       end.
Definition gets {S A} (f : S → A) : M S A := λ s, (Ok (f s), s).
Definition modify {S} (f : S → S) : M S unit := λ s, (Ok tt, f s).
Definition lift {S A} (r : result A) : M S A := λ s, (r, s).

(** [try: body except Exception as e: handler].  Every write of the code is
    committed in the statement after it, so a raise finds nothing to roll
    back: the state it leaves is the state the handler sees. *)
Definition try_except {S A} (body : M S A) (handler : exn → M S A) : M S A :=
  λ s, match body s with
       | (Ok a, s') => (Ok a, s')
       | (Raise e, s') => handler e s'
       end.

Notation "'let*' x ':=' m 'in' k" := (bind m (λ x, k))
  (at level 10, x name, m at level 100, k at level 200).
Notation "m ;; k" := (bind m (λ _, k))
  (at level 100, k at level 200, right associativity).

Definition or_raise {A} (e : exn) (o : option A) : result A :=
  match o with Some a => Ok a | None => Raise e end.

(** ** Python values and the imported libraries *)

(** The values of a patient dictionary's fields: the scalar values [json]
    serialises (the forms of the application fill in text only). *)
Inductive pyval : Type :=
  | PyNone
  | PyBool (b : bool)
  | PyInt (z : Z)
  | PyStr (s : string).

(** [cryptography.fernet]: [Fernet(key)] raises [ValueError] on a key that
    is not 32 url-safe base64-encoded bytes; [encrypt] draws the current time
    and a fresh IV, here the argument [nonce]; [decrypt] raises
    [InvalidToken] ([None]). *)
Class FernetLib : Type := {
  Fernet : Type;
  Fernet_new : list byte → option Fernet;
  Fernet_encrypt : Fernet → list byte → list byte → list byte;
  Fernet_decrypt : Fernet → list byte → option (list byte)
}.

(** The contract of the library: a token opens to what was sealed. *)
Definition Fernet_roundtrip `{FernetLib} : Prop :=
  ∀ (f : Fernet) (nonce x : list byte),
    Fernet_decrypt f (Fernet_encrypt f nonce x) = Some x.

(** [json]: [dumps] of a dictionary, and [loads] restricted to documents
    that are objects (on any other document the caller's [.update] raises). *)
Class JsonLib : Type := {
  json_dumps : gmap string pyval → list N;
  json_loads : list N → result (gmap string pyval)
}.

(** [bcrypt]: [None] is the [ValueError] the library raises on malformed
    input; the second argument of [hashpw] is the result of [gensalt()]. *)
Class BcryptLib : Type := {
  bcrypt_hashpw : list byte → list byte → option (list byte);
  bcrypt_checkpw : list byte → list byte → option bool
}.

(** [s.encode()]. *)
Definition str_encode (s : list N) : result (list byte) :=
  or_raise UnicodeEncodeError (Utf8.encode s).

(** ** The SQLite database *)

(** A [TIMESTAMP] cell holds text (['YYYY-MM-DD HH:MM:SS']); SQLite compares
    it as text, bytewise. *)
Abbreviation timestamp := string (only parsing).

Module Users.
Record row : Type := {
  id : Z;
  username : string;
  password_hash : list byte;
  role : string;
  full_name : string;
  email : option string;
  created_at : timestamp;
  last_login : option timestamp;
  is_active : bool
}.
End Users.

Module Patients.
Record row : Type := {
  id : Z;
  patient_id : string;
  encrypted_data : list byte;
  created_at : timestamp;
  updated_at : timestamp
}.
End Patients.

Module AuditLogs.
Record row : Type := {
  id : Z;
  user_id : option Z;
  action : string;
  resource_type : string;
  resource_id : Z;
  details : string;
  ip_address : option string;
  timestamp : timestamp
}.
End AuditLogs.

Module UsageLogs.
Record row : Type := {
  id : Z;
  user_id : Z;
  equipment_id : option Z;
  action : string;
  details : string;
  timestamp : timestamp
}.
End UsageLogs.

(** The tables the custody layer uses, rows in insertion order, each with
    the counter SQLite keeps for its [AUTOINCREMENT] key. *)
Record database : Type := {
  users : list Users.row;
  users_seq : Z;
  patients : list Patients.row;
  patients_seq : Z;
  audit_logs : list AuditLogs.row;
  audit_logs_seq : Z;
  usage_logs : list UsageLogs.row;
  usage_logs_seq : Z
}.

(** The key of the next row of an [AUTOINCREMENT] table: one more than the
    largest key the table ever held. *)
Definition next_rowid (seq : Z) (ids : list Z) : Z :=
  Z.max seq (foldr Z.max 0%Z ids) + 1.

(** A Python [int] bound to a [?] of a statement: the [sqlite3] module
    converts it to a signed 64-bit integer and raises [OverflowError] when
    it does not fit. *)
Definition int64 (z : Z) : Prop := (- 2 ^ 63 ≤ z < 2 ^ 63)%Z.

#[global] Instance int64_dec (z : Z) : Decision (int64 z).
Proof. unfold int64. apply _. Defined.

Definition bind_int (z : Z) : result Z :=
  if decide (int64 z) then Ok z else Raise OverflowError.

(** *** Queries and updates the methods issue *)

(** [SELECT ... FROM users WHERE username = ?], [fetchone()]. *)
Definition user_named (username : string) (d : database)
  : option Users.row :=
  find (λ r, bool_decide (Users.username r = username)) (users d).

(** [SELECT ... FROM users WHERE id = ?], [fetchone()]. *)
Definition user_with_id (user_id : Z) (d : database) : option Users.row :=
  find (λ r, bool_decide (Users.id r = user_id)) (users d).

(** [SELECT ... FROM patients WHERE patient_id = ?], [fetchone()]. *)
Definition patient_with_id (patient_id : string) (d : database)
  : option Patients.row :=
  find (λ r, bool_decide (Patients.patient_id r = patient_id)) (patients d).

(** Would [username] violate [UNIQUE] on [users.username]?  SQLite compares
    the text bytewise, so the match is exact and case-sensitive. *)
Definition username_taken (username : string) (d : database) : bool :=
  existsb (λ r, bool_decide (Users.username r = username)) (users d).

(** Would [patient_id] violate [UNIQUE] on [patients.patient_id]? *)
Definition patient_id_taken (patient_id : string) (d : database) : bool :=
  existsb (λ r, bool_decide (Patients.patient_id r = patient_id))
          (patients d).

(** The database with the [users] table replaced. *)
Definition with_users (d : database) (us : list Users.row) (seq : Z)
  : database :=
  {| users := us; users_seq := seq;
     patients := patients d; patients_seq := patients_seq d;
     audit_logs := audit_logs d; audit_logs_seq := audit_logs_seq d;
     usage_logs := usage_logs d; usage_logs_seq := usage_logs_seq d |}.

(** The database after a committed [INSERT INTO patients]. *)
Definition with_patient (d : database) (row : Patients.row) : database :=
  {| users := users d; users_seq := users_seq d;
     patients := patients d ++ [row]; patients_seq := Patients.id row;
     audit_logs := audit_logs d; audit_logs_seq := audit_logs_seq d;
     usage_logs := usage_logs d; usage_logs_seq := usage_logs_seq d |}.

(** The database after a committed [INSERT INTO audit_logs]. *)
Definition with_audit (d : database) (entry : AuditLogs.row) : database :=
  {| users := users d; users_seq := users_seq d;
     patients := patients d; patients_seq := patients_seq d;
     audit_logs := audit_logs d ++ [entry];
     audit_logs_seq := AuditLogs.id entry;
     usage_logs := usage_logs d; usage_logs_seq := usage_logs_seq d |}.

(** The database after a committed [INSERT INTO usage_logs]. *)
Definition with_usage (d : database) (entry : UsageLogs.row) : database :=
  {| users := users d; users_seq := users_seq d;
     patients := patients d; patients_seq := patients_seq d;
     audit_logs := audit_logs d; audit_logs_seq := audit_logs_seq d;
     usage_logs := usage_logs d ++ [entry];
     usage_logs_seq := UsageLogs.id entry |}.

(** The row [INSERT INTO users (username, password_hash, role, full_name,
    email)] adds; [now] is its [CURRENT_TIMESTAMP]. *)
Definition new_user (d : database) (username : string)
    (password_hash : list byte) (role full_name : string)
    (email : option string) (now : string) : Users.row :=
  {| Users.id := next_rowid (users_seq d) (Users.id <$> users d);
     Users.username := username;
     Users.password_hash := password_hash;
     Users.role := role;
     Users.full_name := full_name;
     Users.email := email;
     Users.created_at := now;
     Users.last_login := None;
     Users.is_active := true |}.

(** The row [INSERT INTO patients (patient_id, encrypted_data)] adds. *)
Definition new_patient (d : database) (patient_id : string)
    (encrypted_data : list byte) (now : string) : Patients.row :=
  {| Patients.id := next_rowid (patients_seq d) (Patients.id <$> patients d);
     Patients.patient_id := patient_id;
     Patients.encrypted_data := encrypted_data;
     Patients.created_at := now;
     Patients.updated_at := now |}.

(** The row [INSERT INTO audit_logs (user_id, action, resource_type,
    resource_id, details)] adds. *)
Definition new_audit_log (d : database) (user_id : option Z)
    (action resource_type : string) (resource_id : Z) (details : string)
    (now : string) : AuditLogs.row :=
  {| AuditLogs.id :=
       next_rowid (audit_logs_seq d) (AuditLogs.id <$> audit_logs d);
     AuditLogs.user_id := user_id;
     AuditLogs.action := action;
     AuditLogs.resource_type := resource_type;
     AuditLogs.resource_id := resource_id;
     AuditLogs.details := details;
     AuditLogs.ip_address := None;
     AuditLogs.timestamp := now |}.

(** The row [INSERT INTO usage_logs (user_id, equipment_id, action,
    details)] adds. *)
Definition new_usage_log (d : database) (user_id : Z)
    (equipment_id : option Z) (action details : string) (now : string)
  : UsageLogs.row :=
  {| UsageLogs.id :=
       next_rowid (usage_logs_seq d) (UsageLogs.id <$> usage_logs d);
     UsageLogs.user_id := user_id;
     UsageLogs.equipment_id := equipment_id;
     UsageLogs.action := action;
     UsageLogs.details := details;
     UsageLogs.timestamp := now |}.

(** The audit entry [add_patient] writes for the row [pid]. *)
Definition create_entry (d : database) (pid : Z) (now : string)
  : AuditLogs.row :=
  new_audit_log d None "CREATE" "patient" pid "New patient added" now.

(** [UPDATE users SET last_login = ? WHERE id = ?], on one row. *)
Definition set_last_login (user_id : Z) (now : string) (r : Users.row)
  : Users.row :=
  if decide (Users.id r = user_id) then
    {| Users.id := Users.id r;
       Users.username := Users.username r;
       Users.password_hash := Users.password_hash r;
       Users.role := Users.role r;
       Users.full_name := Users.full_name r;
       Users.email := Users.email r;
       Users.created_at := Users.created_at r;
       Users.last_login := Some now;
       Users.is_active := Users.is_active r |}
  else r.

(** [UPDATE users SET password_hash = ? WHERE id = ?], on one row. *)
Definition set_password_hash (user_id : Z) (h : list byte) (r : Users.row)
  : Users.row :=
  if decide (Users.id r = user_id) then
    {| Users.id := Users.id r;
       Users.username := Users.username r;
       Users.password_hash := h;
       Users.role := Users.role r;
       Users.full_name := Users.full_name r;
       Users.email := Users.email r;
       Users.created_at := Users.created_at r;
       Users.last_login := Users.last_login r;
       Users.is_active := Users.is_active r |}
  else r.

(** ** The file system that holds the key file *)

Inductive node : Type :=
  | File (content : list byte)
  | Dir.

Definition slash : Ascii.ascii := Ascii.ascii_of_nat 47.

(** [p[:p.rfind('/') + 1]]. *)
Fixpoint head_to_last_slash (p : string) : string :=
  match p with
  | EmptyString => EmptyString
  | String a p' =>
      match head_to_last_slash p' with
      | EmptyString =>
          if decide (a = slash) then String a EmptyString else EmptyString
      | h => String a h
      end
  end.

(** [s.rstrip('/')]. *)
Fixpoint rstrip_slash (s : string) : string :=
  match s with
  | EmptyString => EmptyString
  | String a s' =>
      match rstrip_slash s' with
      | EmptyString =>
          if decide (a = slash) then EmptyString else String a EmptyString
      | t => String a t
      end
  end.

(** [os.path.dirname]. *)
Definition dirname (p : string) : string :=
  let head := head_to_last_slash p in
  match rstrip_slash head with
  | EmptyString => head
  | stripped => stripped
  end.

(** [os.makedirs(path, exist_ok=True)]; the map is flat, so only the leaf is
    recorded. *)
Definition os_makedirs (path : string) : M (gmap string node) unit :=
  λ fs,
    if decide (path = "") then (Raise OSError, fs)
    else match fs !! path with
         | None => (Ok tt, <[path := Dir]> fs)
         | Some Dir => (Ok tt, fs)
         | Some (File _) => (Raise OSError, fs)
         end.


(** ** [DatabaseManager] *)

Module DatabaseManager.
Section methods.
Context {crypto : FernetLib} {json : JsonLib}.

(** The object: [self.db_path], [self.encryption_key], [self.cipher]. *)
Record t : Type := {
  db_path : string;
  encryption_key : list byte;
  cipher : Fernet
}.

Definition key_file : string := "data/encryption.key".

(** [_load_or_create_key]; [generated] is what [Fernet.generate_key()]
    returns when it is called.  Opening a directory raises. *)
Definition _load_or_create_key (generated : list byte)
  : M (gmap string node) (list byte) :=
  os_makedirs (dirname key_file) ;;
  let* existing := gets (λ fs : gmap string node, fs !! key_file) in
  match existing with
  | Some (File content) => ret content
  | Some Dir => raise OSError
  | None =>
      modify (λ fs : gmap string node, <[key_file := File generated]> fs) ;;
      ret generated
  end.

(** [__init__]. *)
Definition __init__ (db_path : string) (generated : list byte)
  : M (gmap string node) t :=
  let* encryption_key := _load_or_create_key generated in
  let* cipher := lift (or_raise ValueError (Fernet_new encryption_key)) in
  os_makedirs (dirname db_path) ;;
  ret {| db_path := db_path;
         encryption_key := encryption_key;
         cipher := cipher |}.

(** [_encrypt_data]. *)
Definition _encrypt_data (self : t) (data : list N) (nonce : list byte)
  : result (list byte) :=
  match str_encode data with
  | Ok plain => Ok (Fernet_encrypt (cipher self) nonce plain)
  | Raise e => Raise e
  end.

(** [_decrypt_data]. *)
Definition _decrypt_data (self : t) (encrypted_data : list byte)
  : result (list N) :=
  match Fernet_decrypt (cipher self) encrypted_data with
  | None => Raise InvalidToken
  | Some plain => or_raise UnicodeDecodeError (Utf8.decode plain)
  end.

(** [_log_audit_action]: one [INSERT INTO audit_logs] and its commit, on a
    connection of its own; [now] is the [CURRENT_TIMESTAMP] of the
    insertion. *)
Definition _log_audit_action (user_id : option Z) (action : string)
    (resource_type : string) (resource_id : Z) (details : string)
    (now : string) : M database unit :=
  modify (λ d,
    with_audit d
      (new_audit_log d user_id action resource_type resource_id details now)).

(** [add_usage_log]: the second log table; the main window writes its
    [LOGIN] and [LOGOUT] rows here. *)
Definition add_usage_log (user_id : Z) (action details : string)
    (equipment_id : option Z) (now : string) : M database unit :=
  modify (λ d,
    with_usage d (new_usage_log d user_id equipment_id action details now)).

(** What SQLite stores in a [TEXT NOT NULL] column for a bound Python
    value: text as it is, integers as their decimal text, [None] violates
    [NOT NULL]. *)
Definition bind_text (v : pyval) : result string :=
  match v with
  | PyStr s => Ok s
  | PyInt z =>
      if decide (- 2 ^ 63 ≤ z < 2 ^ 63)%Z then Ok (pretty z)
      else Raise OverflowError
  | PyBool b => Ok (if b then "1" else "0")
  | PyNone => Raise IntegrityError
  end.

(** [INSERT INTO patients (patient_id, encrypted_data)], [lastrowid] and
    the commit (lines 186-192); a taken [patient_id] violates [UNIQUE]. *)
Definition insert_patient (patient_id : pyval) (encrypted_data : list byte)
    (now : string) : M database Z :=
  let* ext := lift (bind_text patient_id) in
  let* taken := gets (λ d, patient_id_taken ext d) in
  if taken : bool then raise IntegrityError
  else
    let* row := gets (λ d, new_patient d ext encrypted_data now) in
    modify (λ d, with_patient d row) ;;
    ret (Patients.id row).

(** [add_patient]: the row is committed first, the audit entry by a second
    connection after it. *)
Definition add_patient (self : t) (patient_data : gmap string pyval)
    (nonce : list byte) (now now_audit : string) : M database Z :=
  let* encrypted_data :=
    lift (_encrypt_data self (json_dumps patient_data) nonce) in
  let* key := lift (or_raise KeyError (patient_data !! "patient_id")) in
  let* patient_id := insert_patient key encrypted_data now in
  _log_audit_action None "CREATE" "patient" patient_id "New patient added"
    now_audit ;;
  ret patient_id.

(** [get_patient]. *)
Definition get_patient (self : t) (patient_id : string)
  : M database (option (gmap string pyval)) :=
  let* row := gets (patient_with_id patient_id) in
  match row with
  | Some r =>
      let* text := lift (_decrypt_data self (Patients.encrypted_data r)) in
      let* patient_data := lift (json_loads text) in
      ret (Some (<["updated_at" := PyStr (Patients.updated_at r)]>
                (<["created_at" := PyStr (Patients.created_at r)]>
                (<["id" := PyInt (Patients.id r)]> patient_data))))
  | None => ret None
  end.

(** One dictionary of the list [get_audit_logs] returns. *)
Record audit_log : Type := {
  log_id : Z;
  log_username : string;
  log_action : string;
  log_resource_type : string;
  log_resource_id : Z;
  log_details : string;
  log_timestamp : string
}.

(** [ORDER BY al.timestamp DESC]: [a] may precede [b]. *)
Definition newer_first (a b : AuditLogs.row) : Prop :=
  String.le (AuditLogs.timestamp b) (AuditLogs.timestamp a).

#[global] Instance newer_first_dec : RelDecision newer_first.
Proof. intros a b. unfold newer_first. apply _. Defined.

(** [LIMIT ?]: a negative limit is no limit. *)
Definition sql_limit {A} (limit : Z) (rows : list A) : list A :=
  if decide (limit < 0)%Z then rows else take (Z.to_nat limit) rows.

(** [LEFT JOIN users u ON al.user_id = u.id], then [row[1] or 'System']. *)
Definition joined_username (d : database) (user_id : option Z) : string :=
  match user_id with
  | None => "System"
  | Some uid =>
      match user_with_id uid d with
      | Some u => if decide (Users.username u = "") then "System"
                  else Users.username u
      | None => "System"
      end
  end.

(** One row of the [SELECT], as the dictionary built from it. *)
Definition audit_log_of_row (d : database) (al : AuditLogs.row) : audit_log :=
  {| log_id := AuditLogs.id al;
     log_username := joined_username d (AuditLogs.user_id al);
     log_action := AuditLogs.action al;
     log_resource_type := AuditLogs.resource_type al;
     log_resource_id := AuditLogs.resource_id al;
     log_details := AuditLogs.details al;
     log_timestamp := AuditLogs.timestamp al |}.

(** [get_audit_logs]; [limit] is bound to the [?] of [LIMIT].  SQLite
    leaves the order of rows with equal timestamps open; the merge sort
    fixes one. *)
Definition get_audit_logs (limit : Z) : M database (list audit_log) :=
  let* limit := lift (bind_int limit) in
  let* d := gets (λ d : database, d) in
  ret (audit_log_of_row d
         <$> sql_limit limit (merge_sort newer_first (audit_logs d))).

End methods.
End DatabaseManager.

(** ** [AuthManager] *)

Module AuthManager.

(** The dictionary [authenticate_user] returns and keeps as
    [self.current_user]. *)
Record user_data : Type := {
  id : Z;
  username : string;
  role : string;
  full_name : string;
  email : option string;
  login_time : string
}.

(** A record handed to [self.logger]; the text of an exception is not
    modelled, the exception is kept. *)
Inductive log_record : Type :=
  | info (message : string)
  | warning (message : string)
  | error (message : string) (e : exn).

(** What a method of the object can touch: the database behind
    [self.db_path], [self.current_user], and the logger's output. *)
Record state : Type := {
  db : database;
  current_user : option user_data;
  logged : list log_record
}.

(** The state after one more record went to the logger. *)
Definition logging (s : state) (r : log_record) : state :=
  {| db := db s; current_user := current_user s; logged := logged s ++ [r] |}.

Definition logger (r : log_record) : M state unit :=
  modify (λ s, logging s r).

Definition set_current_user (u : option user_data) : M state unit :=
  modify (λ s, {| db := db s; current_user := u; logged := logged s |}).

(** A committed write to the [users] table. *)
Definition write_users (f : database → database) : M state unit :=
  modify (λ s, {| db := f (db s); current_user := current_user s;
                  logged := logged s |}).

(** The session a login of the row [r] returns. *)
Definition session_of (r : Users.row) (login_time : string) : user_data :=
  {| id := Users.id r;
     username := Users.username r;
     role := Users.role r;
     full_name := Users.full_name r;
     email := Users.email r;
     login_time := login_time |}.

(** The role table of [has_permission]. *)
Definition permissions : gmap string (list string) :=
  <["admin" :=
      ["view_patients"; "add_patients"; "edit_patients"; "delete_patients";
       "view_xrays"; "add_xrays"; "edit_xrays"; "delete_xrays";
       "view_users"; "add_users"; "edit_users"; "delete_users";
       "view_equipment"; "add_equipment"; "edit_equipment";
       "delete_equipment";
       "view_audit_logs"; "view_usage_logs"; "system_admin"]]>
  (<["radiologist" :=
      ["view_patients"; "view_xrays"; "edit_xrays"; "add_annotations";
       "view_equipment"; "view_usage_logs"]]>
  (<["technician" :=
      ["view_patients"; "add_patients"; "view_xrays"; "add_xrays";
       "view_equipment"; "add_usage_logs"]]> ∅)).

(** [has_permission]. *)
Definition has_permission (permission : string) : M state bool :=
  let* user := gets current_user in
  match user with
  | None => ret false
  | Some u =>
      ret (bool_decide (permission ∈ default [] (permissions !! role u)))
  end.

(** [require_permission]; with nobody logged in the message cannot be
    built ([None['username']]). *)
Definition require_permission (permission : string) : M state bool :=
  let* allowed := has_permission permission in
  if allowed : bool then ret true
  else
    let* user := gets current_user in
    match user with
    | None => raise TypeError
    | Some u =>
        logger (warning ("Permission denied: " +:+ username u +:+
                         " tried to access " +:+ permission)) ;;
        ret false
    end.

(** [logout]; the Qt signal is not modelled. *)
Definition logout : M state unit :=
  let* user := gets current_user in
  match user with
  | Some u =>
      logger (info ("User logged out: " +:+ username u)) ;;
      set_current_user None
  | None => ret tt
  end.

Section methods.
Context {bcrypt : BcryptLib}.

(** [authenticate_user]; [now] and [login_time] are the two readings of
    [datetime.now()]. *)
Definition authenticate_user (username : string) (password : list N)
    (now login_time : string) : M state (option user_data) :=
  try_except
    (let* row := gets (λ s, user_named username (db s)) in
     match row with
     | None =>
         logger (warning ("Login attempt with non-existent username: "
                          +:+ username)) ;;
         ret None
     | Some r =>
         if negb (Users.is_active r) then
           logger (warning ("Login attempt for inactive user: "
                            +:+ username)) ;;
           ret None
         else
           let* pw := lift (str_encode password) in
           let* matches := lift (or_raise ValueError
             (bcrypt_checkpw pw (Users.password_hash r))) in
           if matches : bool then
             write_users (λ d,
               with_users d (set_last_login (Users.id r) now <$> users d)
                          (users_seq d)) ;;
             let user := session_of r login_time in
             set_current_user (Some user) ;;
             logger (info ("Successful login for user: " +:+ username +:+
                           " (Role: " +:+ Users.role r +:+ ")")) ;;
             ret (Some user)
           else
             logger (warning ("Failed login attempt for user: "
                              +:+ username)) ;;
             ret None
     end)
    (λ e, logger (error "Authentication error: " e) ;; ret None).

(** [change_password]; [salt] is the result of [bcrypt.gensalt()]. *)
Definition change_password (user_id : Z) (old_password new_password : list N)
    (salt : list byte) : M state bool :=
  try_except
    (let* row := gets (λ s, user_with_id user_id (db s)) in
     match row with
     | None => ret false
     | Some r =>
         let* old := lift (str_encode old_password) in
         let* matches := lift (or_raise ValueError
           (bcrypt_checkpw old (Users.password_hash r))) in
         if negb matches then ret false
         else
           let* new := lift (str_encode new_password) in
           let* new_hash := lift (or_raise ValueError
             (bcrypt_hashpw new salt)) in
           write_users (λ d,
             with_users d (set_password_hash user_id new_hash <$> users d)
                        (users_seq d)) ;;
           logger (info ("Password changed for user ID: "
                         +:+ pretty user_id)) ;;
           ret true
     end)
    (λ e, logger (error "Password change error: " e) ;; ret false).

(** [INSERT INTO users (username, password_hash, role, full_name, email)]
    and its commit; a taken [username] violates [UNIQUE]. *)
Definition insert_user (username : string) (password_hash : list byte)
    (role full_name : string) (email : option string) (now : string)
  : M state unit :=
  let* taken := gets (λ s, username_taken username (db s)) in
  if taken : bool then raise IntegrityError
  else
    write_users (λ d,
      let row := new_user d username password_hash role full_name email now in
      with_users d (users d ++ [row]) (Users.id row)).

(** [create_user]. *)
Definition create_user (username : string) (password : list N)
    (role full_name : string) (email : option string)
    (salt : list byte) (now : string) : M state bool :=
  let* allowed := has_permission "add_users" in
  if negb allowed then ret false
  else
    try_except
      (let* pw := lift (str_encode password) in
       let* password_hash := lift (or_raise ValueError
         (bcrypt_hashpw pw salt)) in
       insert_user username password_hash role full_name email now ;;
       logger (info ("New user created: " +:+ username +:+
                     " (Role: " +:+ role +:+ ")")) ;;
       ret true)
      (λ e,
         match e with
         | IntegrityError =>
             logger (warning
               ("User creation failed - username already exists: "
                +:+ username)) ;;
             ret false
         | _ => logger (error "User creation error: " e) ;; ret false
         end).

End methods.
End AuthManager.

(** ** The rest of the two managers

    The methods the sections above leave out: the image records, the search,
    the start-up of the database, and the small queries of [AuthManager]. *)

(** The methods of [str] the code calls beside [encode]: [lower()] and
    [title()] follow the Unicode tables of the interpreter and are taken as
    an interface. *)
Class StrLib : Type := {
  str_lower : string → string;
  str_title : string → string
}.

(** A [str] literal of ASCII characters, as code points. *)
Definition str_literal (s : string) : list N :=
  Ascii.N_of_ascii <$> String.list_ascii_of_string s.

(** [a in b] on text: [a] occurs in [b]. *)
Fixpoint str_in (a b : string) : bool :=
  if String.prefix a b then true
  else match b with
       | EmptyString => false
       | String _ b' => str_in a b'
       end.

Module XrayImages.
Record row : Type := {
  id : Z;
  patient_id : Z;
  image_path : string;
  position : string;
  body_part : string;
  dicom_data : option (list byte);
  technician_id : option Z;
  radiologist_id : option Z;
  acquisition_date : timestamp;
  notes : option string;
  annotations : option string
}.
End XrayImages.

Module DatabaseManagerExt.

(** What [except Exception as e] caught in [search_patients]: an exception
    of the calls modelled above, or the [AttributeError] of [.lower()] on a
    name that is not text. *)
Inductive caught : Type :=
  | Raised (e : exn)
  | AttributeError.

(** A record handed to [self.logger] of the database manager. *)
Inductive log_record : Type :=
  | info (message : string)
  | error (message : string) (e : caught).

(** The database file with its image table, and the logger's output. *)
Record store : Type := {
  tables : database;
  xray_images : list XrayImages.row;
  xray_images_seq : Z;
  journal : list log_record
}.

(** The store with the tables of the sections above replaced. *)
Definition with_tables (s : store) (d : database) : store :=
  {| tables := d; xray_images := xray_images s;
     xray_images_seq := xray_images_seq s; journal := journal s |}.

(** The store after more records went to the logger. *)
Definition journaling (s : store) (records : list log_record) : store :=
  {| tables := tables s; xray_images := xray_images s;
     xray_images_seq := xray_images_seq s;
     journal := journal s ++ records |}.

(** A method of the sections above, run on the wider state. *)
Definition on_tables {A} (m : M database A) : M store A :=
  λ s, let '(r, d) := m (tables s) in (r, with_tables s d).

Definition logger (r : log_record) : M store unit :=
  modify (λ s, journaling s [r]).

(** A committed write to the image table. *)
Definition write_images (f : list XrayImages.row → list XrayImages.row)
    (seq : Z → Z) : M store unit :=
  modify (λ s, {| tables := tables s; xray_images := f (xray_images s);
                  xray_images_seq := seq (xray_images_seq s);
                  journal := journal s |}).

(** The row [INSERT INTO xray_images (patient_id, image_path, position,
    body_part, technician_id, notes)] adds. *)
Definition new_image (s : store) (patient_id : Z)
    (image_path position body_part : string) (technician_id : Z)
    (notes : string) (now : string) : XrayImages.row :=
  {| XrayImages.id :=
       next_rowid (xray_images_seq s) (XrayImages.id <$> xray_images s);
     XrayImages.patient_id := patient_id;
     XrayImages.image_path := image_path;
     XrayImages.position := position;
     XrayImages.body_part := body_part;
     XrayImages.dicom_data := None;
     XrayImages.technician_id := Some technician_id;
     XrayImages.radiologist_id := None;
     XrayImages.acquisition_date := now;
     XrayImages.notes := Some notes;
     XrayImages.annotations := None |}.

(** [add_xray_image]; [patient_id] and [technician_id] are bound to the
    [?]s of the [INSERT]; [now] and [now_audit] are the
    [CURRENT_TIMESTAMP]s of the two insertions. *)
Definition add_xray_image (patient_id : Z)
    (image_path position body_part : string) (technician_id : Z)
    (notes : string) (now now_audit : string) : M store Z :=
  let* patient_id := lift (bind_int patient_id) in
  let* technician_id := lift (bind_int technician_id) in
  let* row := gets (λ s, new_image s patient_id image_path position body_part
                           technician_id notes now) in
  write_images (λ images, images ++ [row]) (λ _, XrayImages.id row) ;;
  on_tables (DatabaseManager._log_audit_action (Some technician_id) "CREATE"
    "xray_image" (XrayImages.id row)
    ("New X-ray image added: " +:+ body_part +:+ " - " +:+ position)
    now_audit) ;;
  ret (XrayImages.id row).

(** One dictionary of the list [get_patient_xrays] returns. *)
Record xray : Type := {
  xray_id : Z;
  xray_image_path : string;
  xray_position : string;
  xray_body_part : string;
  xray_acquisition_date : string;
  xray_notes : option string;
  xray_annotations : option string;
  xray_technician_id : option Z;
  xray_radiologist_id : option Z
}.

Definition xray_of_row (r : XrayImages.row) : xray :=
  {| xray_id := XrayImages.id r;
     xray_image_path := XrayImages.image_path r;
     xray_position := XrayImages.position r;
     xray_body_part := XrayImages.body_part r;
     xray_acquisition_date := XrayImages.acquisition_date r;
     xray_notes := XrayImages.notes r;
     xray_annotations := XrayImages.annotations r;
     xray_technician_id := XrayImages.technician_id r;
     xray_radiologist_id := XrayImages.radiologist_id r |}.

(** [ORDER BY acquisition_date DESC]: [a] may precede [b]. *)
Definition later_first (a b : XrayImages.row) : Prop :=
  String.le (XrayImages.acquisition_date b) (XrayImages.acquisition_date a).

#[global] Instance later_first_dec : RelDecision later_first.
Proof. intros a b. unfold later_first. apply _. Defined.

(** [get_patient_xrays]; [patient_id] is bound to the [?] of the [WHERE].
    SQLite leaves the order of rows with equal dates open; the merge sort
    fixes one. *)
Definition get_patient_xrays (patient_id : Z) : M store (list xray) :=
  let* patient_id := lift (bind_int patient_id) in
  let* images := gets xray_images in
  ret (xray_of_row <$>
       merge_sort later_first
         (filter (λ r, XrayImages.patient_id r = patient_id) images)).

(** [UPDATE xray_images SET annotations = ?, radiologist_id = ? WHERE
    id = ?], on one row. *)
Definition annotate (image_id : Z) (annotations : string) (user_id : Z)
    (r : XrayImages.row) : XrayImages.row :=
  if decide (XrayImages.id r = image_id) then
    {| XrayImages.id := XrayImages.id r;
       XrayImages.patient_id := XrayImages.patient_id r;
       XrayImages.image_path := XrayImages.image_path r;
       XrayImages.position := XrayImages.position r;
       XrayImages.body_part := XrayImages.body_part r;
       XrayImages.dicom_data := XrayImages.dicom_data r;
       XrayImages.technician_id := XrayImages.technician_id r;
       XrayImages.radiologist_id := Some user_id;
       XrayImages.acquisition_date := XrayImages.acquisition_date r;
       XrayImages.notes := XrayImages.notes r;
       XrayImages.annotations := Some annotations |}
  else r.

(** [update_image_annotations]; [user_id] and [image_id] are bound to the
    [?]s of the [UPDATE], before anything is written. *)
Definition update_image_annotations (image_id : Z) (annotations : string)
    (user_id : Z) (now_audit : string) : M store unit :=
  let* user_id := lift (bind_int user_id) in
  let* image_id := lift (bind_int image_id) in
  write_images (fmap (annotate image_id annotations user_id)) (λ q, q) ;;
  on_tables (DatabaseManager._log_audit_action (Some user_id) "UPDATE"
    "xray_image" image_id "Image annotations updated" now_audit).

Section methods.
Context {crypto : FernetLib} {json : JsonLib} {bcrypt : BcryptLib}
        {str : StrLib}.

(** [patient_data.get('name', '').lower()]: only text has [lower]. *)
Definition lowered_name (patient_data : gmap string pyval) : option string :=
  match default (PyStr "") (patient_data !! "name") with
  | PyStr name => Some (str_lower name)
  | _ => None
  end.

(** The body of the loop of [search_patients], inside its [try]: what the
    row contributes to the results, or what was caught. *)
Definition search_row (self : DatabaseManager.t) (search_term : string)
    (row : Patients.row) : caught + option (gmap string pyval) :=
  match DatabaseManager._decrypt_data self (Patients.encrypted_data row) with
  | Raise e => inl (Raised e)
  | Ok text =>
      match json_loads text with
      | Raise e => inl (Raised e)
      | Ok patient_data =>
          match lowered_name patient_data with
          | None => inl AttributeError
          | Some name =>
              if str_in (str_lower search_term) name
                 || str_in (str_lower search_term)
                           (str_lower (Patients.patient_id row))
              then inr (Some
                (<["updated_at" := PyStr (Patients.updated_at row)]>
                (<["created_at" := PyStr (Patients.created_at row)]>
                (<["patient_id" := PyStr (Patients.patient_id row)]>
                (<["id" := PyInt (Patients.id row)]> patient_data)))))
              else inr None
          end
      end
  end.

(** The loop of [search_patients] over the fetched rows. *)
Fixpoint search_rows (self : DatabaseManager.t) (search_term : string)
    (rows : list Patients.row) (results : list (gmap string pyval))
  : M store (list (gmap string pyval)) :=
  match rows with
  | [] => ret results
  | row :: rest =>
      match search_row self search_term row with
      | inr (Some found) =>
          search_rows self search_term rest (results ++ [found])
      | inr None => search_rows self search_term rest results
      | inl e =>
          logger (error "Error decrypting patient data: " e) ;;
          search_rows self search_term rest results
      end
  end.

(** What the rows contribute to the list [search_patients] returns, in
    table order. *)
Definition search_hits (self : DatabaseManager.t) (search_term : string)
    (rows : list Patients.row) : list (gmap string pyval) :=
  omap (λ row, match search_row self search_term row with
               | inr found => found
               | inl _ => None
               end) rows.

(** What the rows contribute to the logger: one record for each row whose
    handling raised. *)
Definition search_errors (self : DatabaseManager.t) (search_term : string)
    (rows : list Patients.row) : list log_record :=
  omap (λ row, match search_row self search_term row with
               | inr _ => None
               | inl e => Some (error "Error decrypting patient data: " e)
               end) rows.

(** [search_patients]. *)
Definition search_patients (self : DatabaseManager.t) (search_term : string)
  : M store (list (gmap string pyval)) :=
  let* rows := gets (λ s, patients (tables s)) in
  search_rows self search_term rows [].

(** [_create_default_admin]; [salt] is the result of [bcrypt.gensalt()]. *)
Definition _create_default_admin (salt : list byte) (now : string)
  : M store unit :=
  let* existing := gets (λ s, user_named "admin" (tables s)) in
  match existing with
  | Some _ => ret tt
  | None =>
      let* pw := lift (str_encode (str_literal "Admin123!")) in
      let* password_hash := lift (or_raise ValueError
        (bcrypt_hashpw pw salt)) in
      on_tables (modify (λ d,
        let row := new_user d "admin" password_hash "admin"
                     "System Administrator" (Some "admin@hospital.com") now in
        with_users d (users d ++ [row]) (Users.id row))) ;;
      logger (info "Default admin user created")
  end.

(** [initialize_database], on a file whose tables exist or are created
    empty by it: [CREATE TABLE IF NOT EXISTS] leaves a table that exists as
    it is. *)
Definition initialize_database (salt : list byte) (now : string)
  : M store unit :=
  logger (info "Database tables created successfully") ;;
  _create_default_admin salt now.

End methods.
End DatabaseManagerExt.

Module AuthManagerExt.
Section methods.
Context {str : StrLib}.

(** [get_current_user]. *)
Definition get_current_user : M AuthManager.state (option AuthManager.user_data) :=
  gets AuthManager.current_user.

(** The table of [get_user_role_display_name]. *)
Definition role_names : gmap string string :=
  <["admin" := "System Administrator"]>
  (<["radiologist" := "Radiologist"]>
  (<["technician" := "X-ray Technician"]> ∅)).

(** [get_user_role_display_name]. *)
Definition get_user_role_display_name (role : string) : string :=
  default (str_title role) (role_names !! role).

(** [get_available_roles]. *)
Definition get_available_roles : list string :=
  ["admin"; "radiologist"; "technician"].

End methods.
End AuthManagerExt.

(** ** Stand-ins for the imported libraries

    Small implementations of the three interfaces, good enough to run the
    methods on concrete inputs.  They meet the contracts the theorems
    assume; nothing below is proved about the real libraries. *)

Module StandIn.

(** A cipher that keeps one byte of the nonce and reverses the text. *)
Definition seal (key nonce plain : list byte) : list byte :=
  default "000"%byte (head nonce) :: rev plain.

Definition unseal (key token : list byte) : option (list byte) :=
  match token with
  | [] => None
  | _ :: body => Some (rev body)
  end.

Definition fernet : FernetLib :=
  {| Fernet := list byte;
     Fernet_new key := if decide (length key = 44) then Some key else None;
     Fernet_encrypt := seal;
     Fernet_decrypt := unseal |}.

#[global] Instance pyval_eq_dec : EqDecision pyval.
Proof. solve_decision. Defined.

#[global] Instance pyval_countable : Countable pyval.
Proof.
  refine (inj_countable'
    (λ v, match v with
          | PyNone => inl ()
          | PyBool b => inr (inl b)
          | PyInt z => inr (inr (inl z))
          | PyStr s => inr (inr (inr s))
          end)
    (λ x, match x with
          | inl () => PyNone
          | inr (inl b) => PyBool b
          | inr (inr (inl z)) => PyInt z
          | inr (inr (inr s)) => PyStr s
          end) _).
  by intros [].
Defined.

(** A number written in the two characters ['0'] and ['1']. *)
Fixpoint digits (p : positive) : list N :=
  match p with
  | xH => []
  | xO q => 48%N :: digits q
  | xI q => 49%N :: digits q
  end.

Fixpoint undigits (text : list N) : option positive :=
  match text with
  | [] => Some xH
  | c :: rest =>
      q ← undigits rest;
      if decide (c = 48%N) then Some (xO q)
      else if decide (c = 49%N) then Some (xI q)
      else None
  end.

Definition dumps (d : gmap string pyval) : list N := digits (encode d).

Definition loads (text : list N) : result (gmap string pyval) :=
  or_raise JSONDecodeError (undigits text ≫= decode).

Definition json : JsonLib := {| json_dumps := dumps; json_loads := loads |}.

(** A password hash that is the password behind one byte of salt. *)
Definition bcrypt : BcryptLib :=
  {| bcrypt_hashpw pw salt := Some (default "000"%byte (head salt) :: pw);
     bcrypt_checkpw pw hashed :=
       match hashed with
       | [] => None
       | _ :: body => Some (bool_decide (body = pw))
       end |}.

(** ASCII text as code points. *)
Definition text (s : string) : list N :=
  Ascii.N_of_ascii <$> String.list_ascii_of_string s.

End StandIn.

(** ** Invariants of the tables *)

(** The [UNIQUE] and [PRIMARY KEY] constraints of the [users] table. *)
Definition users_unique (d : database) : Prop :=
  NoDup (Users.username <$> users d) ∧ NoDup (Users.id <$> users d).

(** The keys of the audit rows grow in insertion order and none is above
    the table's counter. *)
Definition audit_ordered (d : database) : Prop :=
  StronglySorted Z.lt (AuditLogs.id <$> audit_logs d) ∧
  Forall (λ i, i ≤ audit_logs_seq d)%Z (AuditLogs.id <$> audit_logs d).

(** From [d] to [d'] the audit table only grew at its end, and kept its
    order if it had it. *)
Definition audit_grows (d d' : database) : Prop :=
  audit_logs d `prefix_of` audit_logs d' ∧
  (audit_ordered d → audit_ordered d').

(** The contract of [bcrypt]: a hash verifies the password it was made
    from. *)
Definition Bcrypt_verifies `{BcryptLib} : Prop :=
  ∀ pw salt hashed : list byte,
    bcrypt_hashpw pw salt = Some hashed → bcrypt_checkpw pw hashed = Some true.

(** ** A stand-in for the string methods *)

Module StandInStr.

Definition is_upper (a : Ascii.ascii) : bool :=
  (65 <=? Ascii.nat_of_ascii a) && (Ascii.nat_of_ascii a <=? 90).

Definition is_lower (a : Ascii.ascii) : bool :=
  (97 <=? Ascii.nat_of_ascii a) && (Ascii.nat_of_ascii a <=? 122).

Definition to_lower (a : Ascii.ascii) : Ascii.ascii :=
  if is_upper a then Ascii.ascii_of_nat (Ascii.nat_of_ascii a + 32) else a.

Definition to_upper (a : Ascii.ascii) : Ascii.ascii :=
  if is_lower a then Ascii.ascii_of_nat (Ascii.nat_of_ascii a - 32) else a.

Fixpoint lower (s : string) : string :=
  match s with
  | EmptyString => EmptyString
  | String a s' => String (to_lower a) (lower s')
  end.

(** Upper case after a character that is no letter, lower case after a
    letter. *)
Fixpoint title_from (after_letter : bool) (s : string) : string :=
  match s with
  | EmptyString => EmptyString
  | String a s' =>
      String (if after_letter then to_lower a else to_upper a)
             (title_from (is_upper a || is_lower a) s')
  end.

Definition str : StrLib :=
  {| str_lower := lower; str_title := title_from false |}.

End StandInStr.

(** ** Scenario data

    The states and inputs of the concrete runs below: those of the
    specification's scenarios where it gives them. *)

Import DatabaseManager AuthManager.

Definition empty_db : database :=
  {| users := []; users_seq := 0; patients := []; patients_seq := 0;
     audit_logs := []; audit_logs_seq := 0;
     usage_logs := []; usage_logs_seq := 0 |}.

(** What the stand-in [bcrypt] stores for a password. *)
Definition stored_hash (password : string) : list byte :=
  "000"%byte :: String.list_byte_of_string password.

(** A database with the default administrator and the technician alice. *)
Definition clinic : database :=
  {| users :=
       [{| Users.id := 1; Users.username := "admin";
           Users.password_hash := stored_hash "Admin123!";
           Users.role := "admin"; Users.full_name := "System Administrator";
           Users.email := Some "admin@hospital.com";
           Users.created_at := "2024-01-01 00:00:00";
           Users.last_login := None; Users.is_active := true |};
        {| Users.id := 2; Users.username := "alice";
           Users.password_hash := stored_hash "Sup3r$ecret!";
           Users.role := "technician"; Users.full_name := "Alice";
           Users.email := None;
           Users.created_at := "2024-01-01 00:00:00";
           Users.last_login := None; Users.is_active := true |}];
     users_seq := 2;
     patients := []; patients_seq := 0;
     audit_logs := []; audit_logs_seq := 0;
     usage_logs := []; usage_logs_seq := 0 |}.

Definition logged_out : state :=
  {| db := clinic; current_user := None; logged := [] |}.

Definition alice_logged_in : state :=
  {| db := clinic;
     current_user := Some {| id := 2; username := "alice";
                             role := "technician"; full_name := "Alice";
                             email := None;
                             login_time := "2024-01-02 08:00:00" |};
     logged := [] |}.

(** The row of alice in [clinic]. *)
Definition alice_row : Users.row :=
  {| Users.id := 2; Users.username := "alice";
     Users.password_hash := stored_hash "Sup3r$ecret!";
     Users.role := "technician"; Users.full_name := "Alice";
     Users.email := None;
     Users.created_at := "2024-01-01 00:00:00";
     Users.last_login := None; Users.is_active := true |}.

Definition admin_logged_in : state :=
  {| db := clinic;
     current_user := Some {| id := 1; username := "admin"; role := "admin";
                             full_name := "System Administrator";
                             email := Some "admin@hospital.com";
                             login_time := "2024-01-02 08:00:00" |};
     logged := [] |}.


(** A key as [Fernet.generate_key()] makes them: 44 base64 characters. *)
Definition fresh_key : list byte :=
  String.list_byte_of_string "Zm9vYmFyYmF6cXV4Zm9vYmFyYmF6cXV4Zm9vYmFyYmE=".

(** A disk whose key file was cut down to three bytes. *)
Definition truncated_key_file : gmap string node :=
  <[key_file := File (String.list_byte_of_string "abc")]> {["data" := Dir]}.

Definition manager : @DatabaseManager.t StandIn.fernet :=
  {| db_path := "data/xray_system.db";
     encryption_key := fresh_key;
     cipher := (fresh_key : @Fernet StandIn.fernet) |}.

(** The record of the specification's scenario. *)
Definition jane : gmap string pyval :=
  <["patient_id" := PyStr "P-100"]> (<["name" := PyStr "Jane Doe"]> ∅).

(** A record whose own fields include [id]. *)
Definition tagged : gmap string pyval :=
  <["patient_id" := PyStr "P-100"]> (<["id" := PyStr "X"]> ∅).

(** [add_patient] of a record into the empty database. *)
Definition put (record : gmap string pyval) : result Z * database :=
  add_patient (crypto := StandIn.fernet) (json := StandIn.json)
    manager record [] "2024-01-01 10:00:00" "2024-01-01 10:00:01" empty_db.

(** A database file just created: the tables empty, nothing logged. *)
Definition empty_store : DatabaseManagerExt.store :=
  {| DatabaseManagerExt.tables := empty_db;
     DatabaseManagerExt.xray_images := [];
     DatabaseManagerExt.xray_images_seq := 0;
     DatabaseManagerExt.journal := [] |}.

(** Three audit rows; the clock of the machine that wrote the first one ran
    ahead. *)
Definition skewed_ledger : database :=
  let row (id : Z) (stamp : string) : AuditLogs.row :=
    {| AuditLogs.id := id; AuditLogs.user_id := None;
       AuditLogs.action := "CREATE"; AuditLogs.resource_type := "patient";
       AuditLogs.resource_id := id; AuditLogs.details := "New patient added";
       AuditLogs.ip_address := None; AuditLogs.timestamp := stamp |} in
  {| users := []; users_seq := 0; patients := []; patients_seq := 0;
     audit_logs := [row 1%Z "2024-01-01 10:00:05";
                    row 2%Z "2024-01-01 10:00:01";
                    row 3%Z "2024-01-01 10:00:09"];
     audit_logs_seq := 3;
     usage_logs := []; usage_logs_seq := 0 |}.

(** * Properties *)

(** Unfolds the monad so that a method body reduces on a given state. *)
Ltac run :=
  unfold bind, ret, raise, gets, modify, lift, try_except, or_raise in *;
  simpl in *.

(** Settles a decidable closed proposition by evaluation. *)
Ltac decide_now := apply (bool_decide_unpack _); vm_compute; exact I.

(** ** The UTF-8 codec *)

Module Utf8_facts.
Import Utf8.

Lemma to_N_byte_of_N (n : N) : (n < 256)%N → Byte.to_N (byte_of_N n) = n.
Proof.
  intros Hn. unfold byte_of_N.
  destruct (Byte.of_N n) as [b|] eqn:E.
  - simpl. by apply Byte.to_of_N.
  - apply Byte.of_N_None_iff in E. lia.
Qed.

Lemma continuation_byte_of_N (x : N) :
  (x < 64)%N → continuation (byte_of_N (0x80 + x)) = Some x.
Proof.
  intros Hx. unfold continuation.
  rewrite to_N_byte_of_N by lia.
  destruct (N.leb_spec 0x80 (0x80 + x)); [|lia].
  destruct (N.ltb_spec (0x80 + x) 0xC0); [|lia].
  simpl. f_equal. lia.
Qed.

(** The base-64 digits of a code point, as linear facts. *)
Lemma digits64 (c : N) :
  ∃ q r : N, (c / 64 = q ∧ c mod 64 = r ∧ c = 64 * q + r ∧ r < 64)%N.
Proof.
  exists (c / 64)%N, (c mod 64)%N. repeat split.
  - apply N.div_mod; lia.
  - apply N.mod_lt; lia.
Qed.

Local Ltac digits c q r :=
  let Hq := fresh "Hq" in let Hr := fresh "Hr" in
  destruct (digits64 c) as (q & r & Hq & Hr & ? & ?);
  rewrite ?Hq, ?Hr; clear Hq Hr.

Local Ltac branch :=
  match goal with
  | |- context [N.ltb ?a ?b] => destruct (N.ltb_spec a b); [try lia|try lia]
  end.

(** Decoding undoes the encoding of one code point, whatever follows. *)
Lemma decode_encode_codepoint (c : codepoint) (bs rest : list byte) :
  encode_codepoint c = Some bs →
  decode (bs ++ rest) = cons c <$> decode rest.
Proof.
  unfold encode_codepoint.
  destruct (N.ltb_spec c 0x80) as [H1|H1].
  { intros [= <-]. cbn [app decode].
    rewrite to_N_byte_of_N by lia. by branch. }
  destruct (N.ltb_spec c 0x800) as [H2|H2].
  { intros [= <-]. digits c q0 r0. cbn [app decode].
    rewrite to_N_byte_of_N by lia.
    rewrite continuation_byte_of_N by lia.
    do 3 branch.
    by replace ((0xC0 + q0 - 0xC0) * 64 + r0)%N with c by lia. }
  destruct (N.ltb_spec c 0x10000) as [H3|H3].
  { destruct (is_surrogate c) eqn:Hs; [done|].
    intros [= <-].
    replace (c / 4096)%N with (c / 64 / 64)%N by (by rewrite N.Div0.div_div).
    digits c q0 r0. digits q0 q1 r1. cbn [app decode].
    rewrite to_N_byte_of_N by lia.
    rewrite !continuation_byte_of_N by lia.
    do 4 branch.
    replace ((0xE0 + q1 - 0xE0) * 4096 + r1 * 64 + r0)%N with c by lia.
    rewrite Hs. by branch. }
  destruct (N.ltb_spec c 0x110000) as [H4|H4]; [|done].
  intros [= <-].
  replace (c / 262144)%N with (c / 64 / 64 / 64)%N
    by (by rewrite !N.Div0.div_div).
  replace (c / 4096)%N with (c / 64 / 64)%N by (by rewrite N.Div0.div_div).
  digits c q0 r0. digits q0 q1 r1. digits q1 q2 r2. cbn [app decode].
  rewrite to_N_byte_of_N by lia.
  rewrite !continuation_byte_of_N by lia.
  do 5 branch.
  replace ((0xF0 + q2 - 0xF0) * 262144 + r2 * 4096 + r1 * 64 + r0)%N
    with c by lia.
  by do 2 branch.
Qed.

(** [bytes.decode()] is a left inverse of [str.encode()]. *)
Lemma decode_encode (s : pystr) (bs : list byte) :
  encode s = Some bs → decode bs = Some s.
Proof.
  revert bs. induction s as [|c s IH]; intros bs; simpl.
  - by intros [= <-].
  - destruct (encode_codepoint c) as [b|] eqn:Ec; [|done].
    destruct (encode s) as [r|]; [|done]. intros [= <-].
    rewrite (decode_encode_codepoint c b r Ec), (IH r eq_refl). done.
Qed.

Lemma encode_codepoint_scalar (c : codepoint) :
  scalar c ↔ is_Some (encode_codepoint c).
Proof.
  unfold scalar, encode_codepoint, is_surrogate.
  destruct (N.ltb_spec c 0x80), (N.ltb_spec c 0x800),
    (N.ltb_spec c 0x10000), (N.ltb_spec c 0x110000),
    (N.leb_spec 0xD800 c), (N.leb_spec c 0xDFFF); simpl; try lia;
    (split; [intros [? ?]; first [done|by eauto|lia]
            |intros [? ?]; first [done|split; [lia|done]]]).
Qed.

(** [encode] succeeds exactly on text made of scalar values. *)
Lemma encode_total (s : pystr) : Forall scalar s ↔ is_Some (encode s).
Proof.
  induction s as [|c s IH]; simpl.
  - split; eauto.
  - rewrite Forall_cons, IH, encode_codepoint_scalar.
    destruct (encode_codepoint c), (encode s); split;
      try (intros [[? ?] [? ?]]; done); try (intros [? ?]; done); eauto.
Qed.
End Utf8_facts.

(** ** The stand-ins meet the contracts *)

Lemma standin_fernet_roundtrip : @Fernet_roundtrip StandIn.fernet.
Proof.
  intros f nonce x. simpl. unfold StandIn.unseal, StandIn.seal.
  by rewrite rev_involutive.
Qed.

Lemma undigits_digits (p : positive) :
  StandIn.undigits (StandIn.digits p) = Some p.
Proof. induction p as [q IH|q IH|]; simpl; by rewrite ?IH. Qed.

Lemma standin_json_roundtrip (d : gmap string pyval) :
  StandIn.loads (StandIn.dumps d) = Ok d.
Proof.
  unfold StandIn.loads, StandIn.dumps. rewrite undigits_digits. simpl.
  by rewrite decode_encode.
Qed.

Lemma standin_dumps_scalar (d : gmap string pyval) :
  Forall Utf8.scalar (StandIn.dumps d).
Proof.
  unfold StandIn.dumps. induction (encode d) as [q IH|q IH|]; simpl;
    repeat constructor; done.
Qed.

(** The manager is the object the constructor builds on an empty disk. *)
Lemma manager_constructed :
  (__init__ (crypto := StandIn.fernet) "data/xray_system.db" fresh_key ∅).1
    = Ok manager.
Proof. reflexivity. Qed.

(** ** The permission table *)

Lemma permissions_lookup (r : string) (ps : list string) :
  permissions !! r = Some ps →
  r = "admin" ∨ r = "radiologist" ∨ r = "technician".
Proof.
  unfold permissions. intros Hl.
  apply lookup_insert_Some in Hl as [[<- _]|[_ Hl]]; [by left|].
  apply lookup_insert_Some in Hl as [[<- _]|[_ Hl]]; [by right; left|].
  apply lookup_insert_Some in Hl as [[<- _]|[_ Hl]]; [by right; right|].
  by rewrite lookup_empty in Hl.
Qed.

Lemma permissions_nonempty (r : string) (ps : list string) :
  permissions !! r = Some ps → ps ≠ [].
Proof.
  intros Hl.
  destruct (permissions_lookup r ps Hl) as [->|[->| ->]];
    vm_compute in Hl; by injection Hl as <-.
Qed.

Lemma has_permission_run (p : string) (s : state) :
  has_permission p s =
    (Ok match current_user s with
        | None => false
        | Some u => bool_decide (p ∈ default [] (permissions !! role u))
        end, s).
Proof. unfold has_permission. run. by destruct (current_user s). Qed.

(** C7: for the role [r] of the logged-in user and every permission [p], the
    check answers true exactly when [p] is in the set the table maps [r] to;
    it leaves the object, the database and the log as they were, and a
    repeated call gives the same answer; a role outside the table and a
    permission outside the role's set are denied; every set in the table is
    non-empty. *)
Theorem has_permission_fail_closed
    (s : state) (u : user_data) (p : string) :
  current_user s = Some u →
  (∃ b : bool,
      has_permission p s = (Ok b, s) ∧
      has_permission p (has_permission p s).2 = (Ok b, s) ∧
      (b = true ↔ ∃ ps, permissions !! role u = Some ps ∧ p ∈ ps)) ∧
  (permissions !! role u = None → has_permission p s = (Ok false, s)) ∧
  (∀ ps, permissions !! role u = Some ps → p ∉ ps →
         has_permission p s = (Ok false, s)) ∧
  (∀ r ps, permissions !! r = Some ps → ps ≠ []).
Proof.
  intros Hu. rewrite !has_permission_run. simpl.
  rewrite ?has_permission_run, Hu. repeat split.
  - eexists. split; [done|]. split; [done|]. split.
    + intros Hb%bool_decide_eq_true.
      destruct (permissions !! role u) as [ps|]; simpl in Hb.
      * by exists ps.
      * by apply elem_of_nil in Hb.
    + intros (ps & -> & Hin). by apply bool_decide_eq_true.
  - by intros ->.
  - intros ps -> Hn. simpl. by rewrite bool_decide_eq_false_2.
  - apply permissions_nonempty.
Qed.

Lemma has_permission_fail_closed_witness :
  current_user alice_logged_in
    = Some {| id := 2; username := "alice"; role := "technician";
              full_name := "Alice"; email := None;
              login_time := "2024-01-02 08:00:00" |} ∧
  has_permission "add_patients" alice_logged_in = (Ok true, alice_logged_in) ∧
  has_permission "add_users" alice_logged_in = (Ok false, alice_logged_in).
Proof.
  split; [reflexivity|]. split.
  - destruct (has_permission_fail_closed alice_logged_in _ "add_patients"
                eq_refl) as [(b & Hb & _ & Hiff) _].
    rewrite Hb. do 2 f_equal. apply Hiff. eexists. split; [reflexivity|].
    decide_now.
  - destruct (has_permission_fail_closed alice_logged_in _ "add_users"
                eq_refl) as (_ & _ & Hout & _).
    eapply Hout; [reflexivity|]. decide_now.
Defined.

(** C10: with nobody logged in, the check returns [False] for every
    permission, raises nothing and changes nothing. *)
Theorem has_permission_no_session (s : state) (p : string) :
  current_user s = None → has_permission p s = (Ok false, s).
Proof. intros Hn. by rewrite has_permission_run, Hn. Qed.

Lemma has_permission_no_session_witness :
  current_user logged_out = None ∧
  has_permission "view_patients" logged_out = (Ok false, logged_out).
Proof.
  split; [reflexivity|].
  apply (has_permission_no_session logged_out); reflexivity.
Defined.

(** ** The key file *)

Section key_manager.
Context {crypto : FernetLib} {json : JsonLib}.

Lemma os_makedirs_ok (path : string) (fs fs1 : gmap string node) :
  os_makedirs path fs = (Ok tt, fs1) →
  fs1 !! path = Some Dir ∧ ∀ q, q ≠ path → fs1 !! q = fs !! q.
Proof.
  unfold os_makedirs. case_decide; [done|].
  destruct (fs !! path) as [[content|]|] eqn:E; intros [= <-].
  - done.
  - split; [apply lookup_insert_eq|]. intros q Hq. by apply lookup_insert_ne.
Qed.

Lemma os_makedirs_again (path : string) (fs : gmap string node) :
  path ≠ "" → fs !! path = Some Dir → os_makedirs path fs = (Ok tt, fs).
Proof. intros Hp Hd. unfold os_makedirs. case_decide; [done|]. by rewrite Hd. Qed.

Lemma load_or_create_key_run (generated : list byte)
    (fs fs1 : gmap string node) :
  os_makedirs (dirname key_file) fs = (Ok tt, fs1) →
  _load_or_create_key generated fs =
    match fs1 !! key_file with
    | Some (File content) => (Ok content, fs1)
    | Some Dir => (Raise OSError, fs1)
    | None => (Ok generated, <[key_file := File generated]> fs1)
    end.
Proof.
  intros Hmk. unfold _load_or_create_key, bind. rewrite Hmk. run.
  by destruct (fs1 !! key_file) as [[content|]|].
Qed.

(** A key the cipher's constructor refuses stops [__init__]. *)
Lemma init_refused_key (db_path : string) (generated content : list byte)
    (fs fs1 : gmap string node) :
  os_makedirs (dirname key_file) fs = (Ok tt, fs1) →
  fs1 !! key_file = Some (File content) →
  Fernet_new content = None →
  __init__ db_path generated fs = (Raise ValueError, fs1).
Proof.
  intros Hmk Hc Hnew. unfold __init__, bind.
  rewrite (load_or_create_key_run generated fs fs1 Hmk), Hc. run.
  by rewrite Hnew.
Qed.

(** C5, as the code has it: when no key file exists the generated key is
    written and returned, and every later call returns that same key and
    leaves the files alone; when a key file exists its content is returned
    as it is, whatever its length or format; a directory in its place makes
    the call raise [OSError].  The key is never anything but the file's
    content or the key just generated.  The one check key material meets
    comes after the load: a key the cipher's constructor refuses stops
    [__init__] with [ValueError]. *)
Theorem load_or_create_key_spec (generated : list byte)
    (fs fs1 : gmap string node) :
  os_makedirs (dirname key_file) fs = (Ok tt, fs1) →
  (fs1 !! key_file = None →
     _load_or_create_key generated fs
       = (Ok generated, <[key_file := File generated]> fs1) ∧
     ∀ later : list byte,
       _load_or_create_key later (<[key_file := File generated]> fs1)
         = (Ok generated, <[key_file := File generated]> fs1)) ∧
  (∀ content, fs1 !! key_file = Some (File content) →
     _load_or_create_key generated fs = (Ok content, fs1) ∧
     ∀ db_path, Fernet_new content = None →
       __init__ db_path generated fs = (Raise ValueError, fs1)) ∧
  (fs1 !! key_file = Some Dir →
     _load_or_create_key generated fs = (Raise OSError, fs1)).
Proof.
  intros Hmk. pose proof (load_or_create_key_run generated fs fs1 Hmk) as Hrun.
  destruct (os_makedirs_ok _ _ _ Hmk) as [Hdir _].
  split; [|split].
  - intros Hnone. split; [by rewrite Hrun, Hnone|]. intros later.
    rewrite (load_or_create_key_run later _ (<[key_file := File generated]> fs1)).
    + by rewrite lookup_insert_eq.
    + apply os_makedirs_again; [done|].
      rewrite lookup_insert_ne; [done|]. by vm_compute.
  - intros content Hc. split; [by rewrite Hrun, Hc|].
    intros db_path Hnew. by apply (init_refused_key _ _ content).
  - intros Hd. by rewrite Hrun, Hd.
Qed.

End key_manager.

Lemma load_or_create_key_spec_witness :
  os_makedirs (dirname key_file) ∅ = (Ok tt, {["data" := Dir]}) ∧
  _load_or_create_key fresh_key ∅
    = (Ok fresh_key, <[key_file := File fresh_key]> {["data" := Dir]}).
Proof.
  assert (os_makedirs (dirname key_file) ∅ = (Ok tt, {["data" := Dir]}))
    as Hmk by reflexivity.
  split; [exact Hmk|].
  destruct (load_or_create_key_spec (crypto := StandIn.fernet)
              fresh_key ∅ {["data" := Dir]} Hmk) as [Hfirst _].
  apply Hfirst. reflexivity.
Defined.

(** C5 fails as stated: a three-byte key file raises nothing, its content
    comes back as the key. *)
Lemma load_or_create_key_no_validation :
  _load_or_create_key fresh_key truncated_key_file
    = (Ok (String.list_byte_of_string "abc"), truncated_key_file).
Proof. reflexivity. Qed.

(** With the stand-in cipher, which like the real one refuses a key that
    is not 44 characters long, the constructor fails on that disk. *)
Lemma init_on_truncated_key_file :
  __init__ (crypto := StandIn.fernet)
    "data/xray_system.db" fresh_key truncated_key_file
    = (Raise ValueError, truncated_key_file).
Proof. reflexivity. Qed.

(** ** The audit log *)

#[global] Instance newer_first_total : Total newer_first.
Proof. intros a b. unfold newer_first. apply total, _. Qed.

#[global] Instance newer_first_trans : Transitive newer_first.
Proof.
  intros a b c Hab Hbc. unfold newer_first in *. by etrans.
Qed.

Lemma get_audit_logs_run (limit : Z) (d : database) :
  get_audit_logs limit d =
    if decide (int64 limit) then
      (Ok (audit_log_of_row d
             <$> sql_limit limit (merge_sort newer_first (audit_logs d))), d)
    else (Raise OverflowError, d).
Proof. unfold get_audit_logs, bind_int, bind, lift. by case_decide. Qed.

(** C3, as the code has it: for a limit that fits a signed 64-bit integer
    the read returns the rows with the greatest timestamps, newest first,
    at most [limit] of them (all of them when [limit] is negative); the
    timestamp alone decides the order and the cut, the sequence position
    plays no part.  A limit that does not fit is refused when it is bound
    to the query: the read raises [OverflowError].  The database is not
    changed either way. *)
Theorem get_audit_logs_newest_first (limit : Z) (d : database) :
  (int64 limit →
   ∃ (logs : list audit_log) (kept dropped : list AuditLogs.row),
     get_audit_logs limit d = (Ok logs, d) ∧
     logs = audit_log_of_row d <$> kept ∧
     audit_logs d ≡ₚ kept ++ dropped ∧
     Sorted (λ a b, String.le (log_timestamp b) (log_timestamp a)) logs ∧
     (∀ a b, a ∈ kept → b ∈ dropped →
             String.le (AuditLogs.timestamp b) (AuditLogs.timestamp a)) ∧
     length logs = (if decide (limit < 0)%Z then length (audit_logs d)
                    else Z.to_nat limit `min` length (audit_logs d))) ∧
  (¬ int64 limit → get_audit_logs limit d = (Raise OverflowError, d)).
Proof.
  rewrite get_audit_logs_run. split; [|intros Hout; by rewrite decide_False].
  intros Hin. rewrite decide_True by done.
  pose proof (StronglySorted_merge_sort newer_first (audit_logs d)) as Hs.
  pose proof (merge_sort_Permutation newer_first (audit_logs d)) as Hp.
  unfold sql_limit.
  set (sorted := merge_sort newer_first (audit_logs d)) in *.
  assert (∀ l, StronglySorted newer_first l →
            Sorted (λ a b, String.le (log_timestamp b) (log_timestamp a))
                   (audit_log_of_row d <$> l)) as Hview.
  { intros l Hl. apply (Sorted_fmap _ newer_first); [done|].
    by apply StronglySorted_Sorted. }
  case_decide.
  - exists (audit_log_of_row d <$> sorted), sorted, [].
    rewrite app_nil_r, length_fmap. repeat split; try done.
    + by apply Hview.
    + intros a b _ Hb. by apply elem_of_nil in Hb.
    + by rewrite Hp.
  - exists (audit_log_of_row d <$> take (Z.to_nat limit) sorted),
      (take (Z.to_nat limit) sorted), (drop (Z.to_nat limit) sorted).
    rewrite take_drop, length_fmap.
    rewrite <- (take_drop (Z.to_nat limit) sorted) in Hs.
    apply StronglySorted_app in Hs as (Hcross & Hk & _).
    repeat split; try done.
    + by apply Hview.
    + by rewrite length_take, Hp.
Qed.

(** C3 fails as stated: the rows come back in the order 3, 1, 2 of their
    timestamps, which is not the ascending order of their positions. *)
Lemma get_audit_logs_not_in_sequence_order :
  ∃ logs : list audit_log,
    get_audit_logs 100 skewed_ledger = (Ok logs, skewed_ledger) ∧
    log_id <$> logs = [3; 1; 2]%Z ∧
    ¬ Sorted Z.lt (log_id <$> logs).
Proof.
  eexists. split; [reflexivity|]. split; [reflexivity|]. decide_now.
Qed.

(** ** Patient records *)

Section record_store.
Context {crypto : FernetLib} {json : JsonLib}.

Lemma insert_patient_run (key : pyval) (enc : list byte) (now : string)
    (d : database) :
  insert_patient key enc now d =
    match bind_text key with
    | Raise e => (Raise e, d)
    | Ok ext =>
        if patient_id_taken ext d then (Raise IntegrityError, d)
        else (Ok (Patients.id (new_patient d ext enc now)),
              with_patient d (new_patient d ext enc now))
    end.
Proof.
  unfold insert_patient. run.
  destruct (bind_text key) as [ext|e]; [|done].
  by destruct (patient_id_taken ext d).
Qed.

Lemma add_patient_run (self : t) (data : gmap string pyval)
    (nonce : list byte) (now now_audit : string) (d : database) :
  add_patient self data nonce now now_audit d =
    match _encrypt_data self (json_dumps data) nonce with
    | Raise e => (Raise e, d)
    | Ok enc =>
        match data !! "patient_id" with
        | None => (Raise KeyError, d)
        | Some key =>
            match insert_patient key enc now d with
            | (Raise e, d1) => (Raise e, d1)
            | (Ok pid, d1) =>
                (Ok pid, with_audit d1 (create_entry d1 pid now_audit))
            end
        end
    end.
Proof.
  unfold add_patient, bind, lift.
  destruct (_encrypt_data self (json_dumps data) nonce) as [enc|e]; [|done].
  destruct (data !! "patient_id") as [key|]; [|done]. simpl.
  by destruct (insert_patient key enc now d) as [[pid|e] d1].
Qed.

(** What a successful [add_patient] did. *)
Lemma add_patient_ok (self : t) (data : gmap string pyval)
    (nonce : list byte) (now now_audit : string) (d d2 : database) (pid : Z) :
  add_patient self data nonce now now_audit d = (Ok pid, d2) →
  ∃ (enc : list byte) (key : pyval) (ext : string),
    _encrypt_data self (json_dumps data) nonce = Ok enc ∧
    data !! "patient_id" = Some key ∧
    bind_text key = Ok ext ∧
    patient_id_taken ext d = false ∧
    let row := new_patient d ext enc now in
    let d1 := with_patient d row in
    pid = Patients.id row ∧
    insert_patient key enc now d = (Ok pid, d1) ∧
    d2 = with_audit d1 (create_entry d1 pid now_audit).
Proof.
  rewrite add_patient_run.
  destruct (_encrypt_data self (json_dumps data) nonce) as [enc|e]; [|done].
  destruct (data !! "patient_id") as [key|]; [|done].
  rewrite insert_patient_run.
  destruct (bind_text key) as [ext|e] eqn:Hb; [|done].
  destruct (patient_id_taken ext d) eqn:Ht; [done|].
  intros Heq. injection Heq as <- <-.
  exists enc, key, ext. repeat split; try done.
  by rewrite insert_patient_run, Hb, Ht.
Qed.

(** A failed [add_patient] left the database as it was. *)
Lemma add_patient_raise (self : t) (data : gmap string pyval)
    (nonce : list byte) (now now_audit : string) (d d2 : database) (e : exn) :
  add_patient self data nonce now now_audit d = (Raise e, d2) → d2 = d.
Proof.
  rewrite add_patient_run.
  destruct (_encrypt_data self (json_dumps data) nonce) as [enc|e']; [|congruence].
  destruct (data !! "patient_id") as [key|]; [|congruence].
  rewrite insert_patient_run.
  destruct (bind_text key) as [ext|e']; [|congruence].
  destruct (patient_id_taken ext d); congruence.
Qed.

(** When [add_patient] returns: the serialised text can be encoded, the
    dictionary has a [patient_id] SQLite can store, and no row has it yet. *)
Lemma add_patient_returns (self : t) (data : gmap string pyval)
    (nonce : list byte) (now now_audit : string) (d : database)
    (key : pyval) (ext : string) :
  Forall Utf8.scalar (json_dumps data) →
  data !! "patient_id" = Some key → bind_text key = Ok ext →
  patient_id_taken ext d = false →
  ∃ pid d1, add_patient self data nonce now now_audit d = (Ok pid, d1).
Proof.
  intros [plain Hplain]%Utf8_facts.encode_total Hkey Hb Ht.
  rewrite add_patient_run, Hkey. unfold _encrypt_data, str_encode.
  rewrite Hplain. simpl. rewrite insert_patient_run, Hb, Ht. eauto.
Qed.


Lemma find_new_row {A} (P : A → bool) (l : list A) (x : A) :
  existsb P l = false → P x = true → find P (l ++ [x]) = Some x.
Proof.
  intros Hl Hx. induction l as [|y l IH]; simpl in *.
  - by rewrite Hx.
  - apply orb_false_iff in Hl as [-> Hl]. by apply IH.
Qed.

Lemma get_patient_run (self : t) (ext : string) (d : database) :
  get_patient self ext d =
    match patient_with_id ext d with
    | None => (Ok None, d)
    | Some r =>
        match _decrypt_data self (Patients.encrypted_data r) with
        | Raise e => (Raise e, d)
        | Ok text =>
            match json_loads text with
            | Raise e => (Raise e, d)
            | Ok data =>
                (Ok (Some (<["updated_at" := PyStr (Patients.updated_at r)]>
                          (<["created_at" := PyStr (Patients.created_at r)]>
                          (<["id" := PyInt (Patients.id r)]> data)))), d)
            end
        end
    end.
Proof.
  unfold get_patient. run.
  destruct (patient_with_id ext d) as [r|]; [|done].
  destruct (_decrypt_data self (Patients.encrypted_data r)) as [text|e]; [|done].
  by destruct (json_loads text).
Qed.

(** The envelope: text made of scalar values is sealed, and opens to
    itself. *)
Lemma encrypt_then_decrypt (self : t) (x : list N) (nonce : list byte) :
  Fernet_roundtrip → Forall Utf8.scalar x →
  ∃ token, _encrypt_data self x nonce = Ok token ∧
           _decrypt_data self token = Ok x.
Proof.
  intros Hrt Hx. apply Utf8_facts.encode_total in Hx as [plain Hplain].
  exists (Fernet_encrypt (cipher self) nonce plain).
  unfold _encrypt_data, _decrypt_data, str_encode. rewrite Hplain. simpl.
  split; [done|]. rewrite Hrt.
  by rewrite (Utf8_facts.decode_encode x plain Hplain).
Qed.

Lemma decrypt_of_encrypt (self : t) (x : list N) (nonce token : list byte) :
  Fernet_roundtrip → _encrypt_data self x nonce = Ok token →
  _decrypt_data self token = Ok x.
Proof.
  intros Hrt. unfold _encrypt_data, _decrypt_data, str_encode.
  destruct (Utf8.encode x) as [plain|] eqn:Hplain; simpl; [|done].
  intros [= <-]. rewrite Hrt.
  by rewrite (Utf8_facts.decode_encode x plain Hplain).
Qed.

(** A record that was just added is read back with the row's key and
    timestamps written over the fields [id], [created_at], [updated_at]. *)
Lemma get_after_add (self : t) (data : gmap string pyval)
    (nonce : list byte) (now now_audit : string) (d d1 : database)
    (pid : Z) (key : pyval) (ext : string) :
  Fernet_roundtrip →
  json_loads (json_dumps data) = Ok data →
  data !! "patient_id" = Some key → bind_text key = Ok ext →
  add_patient self data nonce now now_audit d = (Ok pid, d1) →
  get_patient self ext d1 =
    (Ok (Some (<["updated_at" := PyStr now]>
              (<["created_at" := PyStr now]>
              (<["id" := PyInt pid]> data)))), d1).
Proof.
  intros Hrt Hjson Hkey Hb Hadd.
  apply add_patient_ok in Hadd
    as (enc & key' & ext' & Henc & Hkey' & Hb' & Ht & Hpid & _ & ->).
  cbv zeta in Hpid. simplify_eq.
  assert (ext' = ext) as -> by congruence.
  rewrite get_patient_run. unfold patient_with_id.
  cbn [patients with_audit with_patient].
  rewrite (find_new_row _ _ (new_patient d ext enc now)).
  - cbn [new_patient Patients.encrypted_data Patients.updated_at
         Patients.created_at Patients.id].
    rewrite (decrypt_of_encrypt _ _ _ _ Hrt Henc). by rewrite Hjson.
  - exact Ht.
  - by apply bool_decide_eq_true.
Qed.

(** C2, as the code has it: a [put] that creates a record, followed by a
    [get] of it, returns the stored fields under the row's [id],
    [created_at] and [updated_at], and leaves the audit log with exactly one
    new entry, [CREATE]: the read appends nothing. *)
Theorem add_then_get_one_audit_entry (self : t) (data : gmap string pyval)
    (nonce : list byte) (now now_audit : string) (d : database)
    (key : pyval) (ext : string) :
  Fernet_roundtrip →
  Forall Utf8.scalar (json_dumps data) →
  json_loads (json_dumps data) = Ok data →
  data !! "patient_id" = Some key → bind_text key = Ok ext →
  patient_id_taken ext d = false →
  ∃ (pid : Z) (d1 : database) (entry : AuditLogs.row),
    add_patient self data nonce now now_audit d = (Ok pid, d1) ∧
    get_patient self ext d1 =
      (Ok (Some (<["updated_at" := PyStr now]>
                (<["created_at" := PyStr now]>
                (<["id" := PyInt pid]> data)))), d1) ∧
    audit_logs d1 = audit_logs d ++ [entry] ∧
    AuditLogs.action entry = "CREATE".
Proof.
  intros Hrt Hsc Hjson Hkey Hb Ht.
  destruct (add_patient_returns self data nonce now now_audit d key ext)
    as (pid & d1 & Hadd); try done.
  exists pid, d1.
  pose proof (get_after_add _ _ _ _ _ _ _ _ _ _ Hrt Hjson Hkey Hb Hadd) as Hget.
  destruct (add_patient_ok _ _ _ _ _ _ _ _ Hadd)
    as (enc & ? & ? & _ & _ & _ & _ & _ & _ & Hd1).
  eexists. split; [exact Hadd|]. split; [exact Hget|].
  rewrite Hd1. by split.
Qed.

(** C4, as the code has it: text made of scalar values, the empty text
    included, is sealed and opens to itself; text with a lone surrogate is
    refused by [encode] before it reaches the cipher; a record that was
    stored is read back with every field it had, except that the keys [id],
    [created_at] and [updated_at] carry the row's values. *)
Theorem envelope_roundtrip (self : t) (x : list N)
    (data : gmap string pyval) (nonce : list byte) (now now_audit : string)
    (d : database) (key : pyval) (ext : string) :
  Fernet_roundtrip →
  (Forall Utf8.scalar x →
     ∃ token, _encrypt_data self x nonce = Ok token ∧
              _decrypt_data self token = Ok x) ∧
  (∃ token, _encrypt_data self [] nonce = Ok token ∧
            _decrypt_data self token = Ok []) ∧
  (¬ Forall Utf8.scalar x →
     _encrypt_data self x nonce = Raise UnicodeEncodeError) ∧
  (Forall Utf8.scalar (json_dumps data) →
   json_loads (json_dumps data) = Ok data →
   data !! "patient_id" = Some key → bind_text key = Ok ext →
   patient_id_taken ext d = false →
   ∃ (pid : Z) (d1 : database) (read : gmap string pyval),
     add_patient self data nonce now now_audit d = (Ok pid, d1) ∧
     get_patient self ext d1 = (Ok (Some read), d1) ∧
     (∀ k, k ≠ "id" → k ≠ "created_at" → k ≠ "updated_at" →
           read !! k = data !! k) ∧
     read !! "id" = Some (PyInt pid) ∧
     read !! "created_at" = Some (PyStr now) ∧
     read !! "updated_at" = Some (PyStr now)).
Proof.
  intros Hrt. split; [|split; [|split]].
  - intros Hx. by apply encrypt_then_decrypt.
  - apply encrypt_then_decrypt; [done|constructor].
  - intros Hx. unfold _encrypt_data, str_encode.
    destruct (Utf8.encode x) as [plain|] eqn:E; [|done].
    destruct Hx. apply Utf8_facts.encode_total. by exists plain.
  - intros Hsc Hjson Hkey Hb Ht.
    destruct (add_patient_returns self data nonce now now_audit d key ext)
      as (pid & d1 & Hadd); try done.
    exists pid, d1. eexists. split; [done|].
    split; [exact (get_after_add _ _ _ _ _ _ _ _ _ _ Hrt Hjson Hkey Hb Hadd)|].
    split; [|split; [|split]].
    + intros k ? ? ?. by rewrite !lookup_insert_ne by done.
    + do 2 rewrite lookup_insert_ne by done. apply lookup_insert_eq.
    + rewrite lookup_insert_ne by done. apply lookup_insert_eq.
    + apply lookup_insert_eq.
Qed.

End record_store.


(** C2 fails as stated: after the [put] and the [get] the log tables hold
    one entry, not two, and no [READ]. *)
Lemma get_patient_not_audited :
  (put jane).1 = Ok 1%Z ∧
  ∃ read : gmap string pyval,
    get_patient (crypto := StandIn.fernet) (json := StandIn.json)
      manager "P-100" (put jane).2 = (Ok (Some read), (put jane).2) ∧
    read !! "name" = Some (PyStr "Jane Doe") ∧
    AuditLogs.action <$> audit_logs (put jane).2 = ["CREATE"] ∧
    usage_logs (put jane).2 = [].
Proof.
  split; [reflexivity|]. eexists. split; [vm_compute; reflexivity|].
  repeat split; reflexivity.
Qed.

Lemma add_then_get_one_audit_entry_witness :
  @Fernet_roundtrip StandIn.fernet ∧
  Forall Utf8.scalar (StandIn.dumps jane) ∧
  StandIn.loads (StandIn.dumps jane) = Ok jane ∧
  jane !! "patient_id" = Some (PyStr "P-100") ∧
  bind_text (PyStr "P-100") = Ok "P-100" ∧
  patient_id_taken "P-100" empty_db = false ∧
  ∃ (pid : Z) (d1 : database) (entry : AuditLogs.row),
    add_patient (crypto := StandIn.fernet) (json := StandIn.json)
      manager jane [] "2024-01-01 10:00:00" "2024-01-01 10:00:01" empty_db
      = (Ok pid, d1) ∧
    get_patient (crypto := StandIn.fernet) (json := StandIn.json)
      manager "P-100" d1 =
      (Ok (Some (<["updated_at" := PyStr "2024-01-01 10:00:00"]>
                (<["created_at" := PyStr "2024-01-01 10:00:00"]>
                (<["id" := PyInt pid]> jane)))), d1) ∧
    audit_logs d1 = audit_logs empty_db ++ [entry] ∧
    AuditLogs.action entry = "CREATE".
Proof.
  split; [exact standin_fernet_roundtrip|].
  split; [exact (standin_dumps_scalar jane)|].
  split; [exact (standin_json_roundtrip jane)|].
  split; [reflexivity|]. split; [reflexivity|]. split; [reflexivity|].
  exact (add_then_get_one_audit_entry
           (crypto := StandIn.fernet) (json := StandIn.json)
           manager jane [] "2024-01-01 10:00:00" "2024-01-01 10:00:01"
           empty_db (PyStr "P-100") "P-100"
           standin_fernet_roundtrip (standin_dumps_scalar jane)
           (standin_json_roundtrip jane) eq_refl eq_refl eq_refl).
Defined.

(** C4 fails as stated: the record read back is not the record that was
    stored; its field [id] was ["X"] and comes back as the row key 1. *)
Lemma get_patient_overwrites_id :
  (put tagged).1 = Ok 1%Z ∧
  tagged !! "id" = Some (PyStr "X") ∧
  ∃ read : gmap string pyval,
    get_patient (crypto := StandIn.fernet) (json := StandIn.json)
      manager "P-100" (put tagged).2 = (Ok (Some read), (put tagged).2) ∧
    read !! "id" = Some (PyInt 1) ∧
    read ≠ tagged.
Proof.
  split; [reflexivity|]. split; [reflexivity|].
  eexists. split; [vm_compute; reflexivity|]. split; [reflexivity|].
  intros Heq. apply (f_equal (lookup "id")) in Heq. vm_compute in Heq.
  discriminate Heq.
Qed.

(** Text with a lone surrogate never reaches the cipher. *)
Lemma encrypt_refuses_surrogate :
  _encrypt_data manager [0xD800%N] [] = Raise UnicodeEncodeError.
Proof. reflexivity. Qed.

Lemma envelope_roundtrip_witness :
  @Fernet_roundtrip StandIn.fernet ∧
  ∃ token,
    _encrypt_data manager (StandIn.text "name=Jane Doe") [] = Ok token ∧
    _decrypt_data manager token = Ok (StandIn.text "name=Jane Doe").
Proof.
  split; [exact standin_fernet_roundtrip|].
  apply (envelope_roundtrip (crypto := StandIn.fernet) (json := StandIn.json)
           manager (StandIn.text "name=Jane Doe") jane []
           "2024-01-01 10:00:00" "2024-01-01 10:00:01" empty_db
           (PyStr "P-100") "P-100" standin_fernet_roundtrip).
  repeat (constructor; [split; reflexivity|]). constructor.
Defined.

(** ** Identities and sessions *)

Section authenticator.
Context {bcrypt : BcryptLib}.

Lemma authenticate_user_run (username : string) (password : list N)
    (now login_time : string) (s : state) :
  authenticate_user username password now login_time s =
    match user_named username (db s) with
    | None =>
        (Ok None, logging s (warning
           ("Login attempt with non-existent username: " +:+ username)))
    | Some r =>
        if negb (Users.is_active r) then
          (Ok None, logging s (warning
             ("Login attempt for inactive user: " +:+ username)))
        else
          match Utf8.encode password with
          | None =>
              (Ok None, logging s
                 (error "Authentication error: " UnicodeEncodeError))
          | Some pw =>
              match bcrypt_checkpw pw (Users.password_hash r) with
              | None =>
                  (Ok None, logging s
                     (error "Authentication error: " ValueError))
              | Some false =>
                  (Ok None, logging s (warning
                     ("Failed login attempt for user: " +:+ username)))
              | Some true =>
                  (Ok (Some (session_of r login_time)),
                   {| db := with_users (db s)
                              (set_last_login (Users.id r) now
                                 <$> users (db s))
                              (users_seq (db s));
                      current_user := Some (session_of r login_time);
                      logged := logged s ++
                        [info ("Successful login for user: " +:+ username +:+
                               " (Role: " +:+ Users.role r +:+ ")")] |})
              end
          end
    end.
Proof.
  unfold authenticate_user, str_encode, logger, logging, set_current_user,
    write_users. run.
  destruct (user_named username (db s)) as [r|]; [|done].
  destruct (Users.is_active r); simpl; [|done].
  destruct (Utf8.encode password) as [pw|]; simpl; [|done].
  by destruct (bcrypt_checkpw pw (Users.password_hash r)) as [[]|].
Qed.

(** C6, as the code has it: a login with the name of an active row and a
    password that [checkpw] accepts against the row's hash succeeds; a
    login that succeeds returns the session of the row (its id, user name,
    role, full name, e-mail, and the time of the login), records it as the
    current user, and sets the row's [last_login]; a login that fails, for
    an unknown user name, an inactive identity or a wrong password alike,
    returns the one value [None] and changes neither the database nor the
    current user.  Neither writes a row to either log table: the outcome
    goes to the logger only. *)
Theorem authenticate_user_spec (username : string) (password : list N)
    (now login_time : string) (s : state) :
  ∃ (outcome : option user_data) (s' : state),
    authenticate_user username password now login_time s = (Ok outcome, s') ∧
    audit_logs (db s') = audit_logs (db s) ∧
    usage_logs (db s') = usage_logs (db s) ∧
    length (logged s') = S (length (logged s)) ∧
    match outcome with
    | Some session =>
        ∃ r pw,
          user_named username (db s) = Some r ∧
          Users.is_active r = true ∧
          Utf8.encode password = Some pw ∧
          bcrypt_checkpw pw (Users.password_hash r) = Some true ∧
          session = session_of r login_time ∧
          current_user s' = Some session ∧
          users (db s') = set_last_login (Users.id r) now <$> users (db s)
    | None => db s' = db s ∧ current_user s' = current_user s
    end ∧
    (user_named username (db s) = None → outcome = None) ∧
    (∀ r, user_named username (db s) = Some r → Users.is_active r = false →
          outcome = None) ∧
    (∀ r pw, user_named username (db s) = Some r →
             Utf8.encode password = Some pw →
             bcrypt_checkpw pw (Users.password_hash r) = Some false →
             outcome = None) ∧
    (∀ r pw, user_named username (db s) = Some r →
             Users.is_active r = true →
             Utf8.encode password = Some pw →
             bcrypt_checkpw pw (Users.password_hash r) = Some true →
             outcome = Some (session_of r login_time)).
Proof.
  rewrite authenticate_user_run.
  destruct (user_named username (db s)) as [r|] eqn:Hr.
  2: { eexists _, _. split; [done|]. simpl. rewrite length_app. simpl.
       repeat split; try done; lia. }
  destruct (Users.is_active r) eqn:Ha; simpl.
  2: { eexists _, _. split; [done|]. simpl. rewrite length_app. simpl.
       repeat split; try done; try lia.
       intros r' pw' [= <-] ?. congruence. }
  destruct (Utf8.encode password) as [pw|] eqn:Hpw.
  2: { eexists _, _. split; [done|]. simpl. rewrite length_app. simpl.
       repeat split; try done; lia. }
  destruct (bcrypt_checkpw pw (Users.password_hash r)) as [[]|] eqn:Hc.
  - eexists _, _. split; [done|]. simpl. rewrite length_app. simpl.
    split; [done|]. split; [done|]. split; [lia|]. split.
    + exists r, pw. by repeat split.
    + split; [done|]. split; [|split].
      * intros r' [= <-] ?. congruence.
      * intros r' pw' [= <-] [= <-] ?. congruence.
      * by intros r' pw' [= <-] _ _ _.
  - eexists _, _. split; [done|]. simpl. rewrite length_app. simpl.
    repeat split; try done; try lia.
    intros r' pw' [= <-] _ [= <-] ?. congruence.
  - eexists _, _. split; [done|]. simpl. rewrite length_app. simpl.
    repeat split; try done; try lia.
    intros r' pw' [= <-] _ [= <-] ?. congruence.
Qed.

Lemma change_password_run (user_id : Z) (old_password new_password : list N)
    (salt : list byte) (s : state) :
  change_password user_id old_password new_password salt s =
    match user_with_id user_id (db s) with
    | None => (Ok false, s)
    | Some r =>
        match Utf8.encode old_password with
        | None =>
            (Ok false,
             logging s (error "Password change error: " UnicodeEncodeError))
        | Some old =>
            match bcrypt_checkpw old (Users.password_hash r) with
            | None =>
                (Ok false,
                 logging s (error "Password change error: " ValueError))
            | Some false => (Ok false, s)
            | Some true =>
                match Utf8.encode new_password with
                | None =>
                    (Ok false, logging s
                       (error "Password change error: " UnicodeEncodeError))
                | Some new =>
                    match bcrypt_hashpw new salt with
                    | None =>
                        (Ok false, logging s
                           (error "Password change error: " ValueError))
                    | Some new_hash =>
                        (Ok true,
                         {| db := with_users (db s)
                                    (set_password_hash user_id new_hash
                                       <$> users (db s))
                                    (users_seq (db s));
                            current_user := current_user s;
                            logged := logged s ++
                              [info ("Password changed for user ID: "
                                     +:+ pretty user_id)] |})
                    end
                end
            end
        end
    end.
Proof.
  unfold change_password, str_encode, logger, logging, write_users. run.
  destruct s as [d cu lg]; simpl.
  destruct (user_with_id user_id d) as [r|]; [|done].
  destruct (Utf8.encode old_password) as [old|]; simpl; [|done].
  destruct (bcrypt_checkpw old (Users.password_hash r)) as [[]|]; simpl;
    [|done..].
  destruct (Utf8.encode new_password) as [new|]; simpl; [|done].
  by destruct (bcrypt_hashpw new salt).
Qed.


Lemma create_user_run (username : string) (password : list N)
    (role full_name : string) (email : option string)
    (salt : list byte) (now : string) (s : state) :
  create_user username password role full_name email salt now s =
    match (has_permission "add_users" s).1 with
    | Ok true =>
        match Utf8.encode password with
        | None =>
            (Ok false,
             logging s (error "User creation error: " UnicodeEncodeError))
        | Some pw =>
            match bcrypt_hashpw pw salt with
            | None =>
                (Ok false,
                 logging s (error "User creation error: " ValueError))
            | Some password_hash =>
                if username_taken username (db s) then
                  (Ok false, logging s (warning
                     ("User creation failed - username already exists: "
                      +:+ username)))
                else
                  let row := new_user (db s) username password_hash role
                               full_name email now in
                  (Ok true,
                   {| db := with_users (db s) (users (db s) ++ [row])
                              (Users.id row);
                      current_user := current_user s;
                      logged := logged s ++
                        [info ("New user created: " +:+ username +:+
                               " (Role: " +:+ role +:+ ")")] |})
            end
        end
    | _ => (Ok false, s)
    end.
Proof.
  unfold create_user, bind at 1. rewrite has_permission_run. simpl.
  destruct (current_user s) as [u|] eqn:Hu; [|done].
  destruct (bool_decide _); simpl; [|done].
  unfold insert_user, str_encode, logger, logging, write_users. run.
  destruct s as [d cu lg]; simpl in *. subst cu.
  destruct (Utf8.encode password) as [pw|]; simpl; [|done].
  destruct (bcrypt_hashpw pw salt) as [h|]; simpl; [|done].
  by destruct (username_taken username d).
Qed.

(** C8, as the code has it: [create_user] returns [False] when the user
    name is taken, under exact, case-sensitive comparison, and also when
    the current user lacks [add_users] (checked first) or the password
    cannot be hashed; whenever it returns [False] the database is as it
    was, so no identity is added and none is altered; when it returns
    [True] one row was appended and the rows before it are untouched. *)
Theorem create_user_spec (username : string) (password : list N)
    (role full_name : string) (email : option string)
    (salt : list byte) (now : string) (s : state) :
  ∃ (created : bool) (s' : state),
    create_user username password role full_name email salt now s
      = (Ok created, s') ∧
    current_user s' = current_user s ∧
    (created = true ↔
       has_permission "add_users" s = (Ok true, s) ∧
       (∃ pw password_hash, Utf8.encode password = Some pw ∧
                            bcrypt_hashpw pw salt = Some password_hash) ∧
       username_taken username (db s) = false) ∧
    (username_taken username (db s) = true → created = false) ∧
    (created = false → db s' = db s) ∧
    (created = true →
       ∃ row, users (db s') = users (db s) ++ [row] ∧
              Users.username row = username ∧ Users.role row = role ∧
              Users.is_active row = true).
Proof.
  rewrite create_user_run.
  pose proof (has_permission_run "add_users" s) as Hp.
  destruct (has_permission "add_users" s) as [[allowed|e] s0]; [|done].
  injection Hp as _ ->. simpl. destruct allowed.
  2: { exists false, s. repeat split; try done. by intros [[= ?] _]. }
  destruct (Utf8.encode password) as [pw|] eqn:Hpw.
  2: { eexists false, _. repeat split; try done.
       by intros (_ & (? & ? & ? & _) & _). }
  destruct (bcrypt_hashpw pw salt) as [h|] eqn:Hh.
  2: { eexists false, _. repeat split; try done.
       intros (_ & (? & ? & [= <-] & ?) & _). congruence. }
  destruct (username_taken username (db s)) eqn:Ht.
  { eexists false, _. repeat split; try done. by intros (_ & _ & ?). }
  eexists true, _. repeat split; try done.
  - eauto.
  - intros _. eexists. by repeat split.
Qed.

End authenticator.

(** C6 fails as stated: alice logs in, and both log tables are as empty as
    they were; no [LOGIN_SUCCESS] entry is written. *)
Lemma login_writes_no_audit_entry :
  audit_logs (db logged_out) = [] ∧
  ∃ (session : user_data) (s' : state),
    authenticate_user (bcrypt := StandIn.bcrypt)
      "alice" (StandIn.text "Sup3r$ecret!")
      "2024-01-02 08:00:00" "2024-01-02 08:00:00" logged_out
      = (Ok (Some session), s') ∧
    role session = "technician" ∧
    audit_logs (db s') = [] ∧
    usage_logs (db s') = [].
Proof.
  split; [reflexivity|]. eexists _, _.
  split; [vm_compute; reflexivity|]. repeat split; reflexivity.
Qed.

(** User names are compared as they are written. *)
Lemma username_taken_case_sensitive :
  username_taken "alice" clinic = true ∧
  username_taken "Alice" clinic = false.
Proof. split; reflexivity. Qed.

(** C8 fails as stated: the user name carol is free, and the call still
    fails, because a technician may not add users. *)
Lemma create_user_fails_without_duplicate :
  username_taken "carol" (db alice_logged_in) = false ∧
  create_user (bcrypt := StandIn.bcrypt)
    "carol" (StandIn.text "C4rol#pass") "radiologist" "Carol" None
    [] "2024-01-02 09:00:00" alice_logged_in
    = (Ok false, alice_logged_in).
Proof. split; reflexivity. Qed.


(** * Further properties of the two managers *)

(** ** Lists and keys *)

Lemma find_fmap_stable {A} (P : A → bool) (f : A → A) (l : list A) :
  (∀ x, P (f x) = P x) → find P (f <$> l) = f <$> find P l.
Proof.
  intros Hf. induction l as [|x l IH]; simpl; [done|].
  rewrite Hf. by destruct (P x).
Qed.

Lemma find_holds {A} (P : A → bool) (l : list A) (x : A) :
  find P l = Some x → P x = true ∧ x ∈ l.
Proof.
  induction l as [|y l IH]; simpl; [done|].
  destruct (P y) eqn:Hy.
  - intros [= <-]. split; [done|]. by left.
  - intros [? ?]%IH. split; [done|]. by right.
Qed.

Lemma find_skips_new_row {A} (P : A → bool) (l : list A) (x : A) :
  P x = false → find P (l ++ [x]) = find P l.
Proof.
  intros Hx. induction l as [|y l IH]; simpl.
  - by rewrite Hx.
  - by destruct (P y).
Qed.

Lemma existsb_false_not_in {A B} `{EqDecision B} (key : A → B) (k : B)
    (l : list A) :
  existsb (λ r, bool_decide (key r = k)) l = false ↔ k ∉ key <$> l.
Proof.
  induction l as [|x l IH]; simpl.
  - split; [intros _; apply not_elem_of_nil|done].
  - rewrite orb_false_iff, IH, not_elem_of_cons, bool_decide_eq_false.
    split; intros [Hne Hl]; (split; [congruence|done]).
Qed.

Lemma max_rowid_bound (ids : list Z) (i : Z) :
  i ∈ ids → (i ≤ foldr Z.max 0 ids)%Z.
Proof.
  induction ids as [|j ids IH]; simpl.
  - by intros ?%elem_of_nil.
  - intros [->|Hi%IH]%elem_of_cons; lia.
Qed.

(** The key of a new row is above the counter and above every key of the
    table. *)
Lemma next_rowid_above (seq : Z) (ids : list Z) :
  (seq < next_rowid seq ids)%Z ∧ Forall (λ i, i < next_rowid seq ids)%Z ids.
Proof.
  unfold next_rowid. split; [lia|].
  apply Forall_forall. intros i Hi%max_rowid_bound. lia.
Qed.

Lemma next_rowid_fresh (seq : Z) (ids : list Z) : next_rowid seq ids ∉ ids.
Proof.
  intros Hin. destruct (next_rowid_above seq ids) as [_ Hall].
  rewrite Forall_forall in Hall. specialize (Hall _ Hin). lia.
Qed.

(** ** Permission checks and sessions *)

(** X1: with a user logged in, [require_permission] gives the answer of
    [has_permission]; when it grants it leaves everything as it was, when it
    denies it hands the logger one warning that names the user and the
    permission, and changes nothing else. *)
Theorem require_permission_answers (s : state) (u : user_data) (p : string) :
  current_user s = Some u →
  ∃ b : bool,
    has_permission p s = (Ok b, s) ∧
    require_permission p s =
      (Ok b,
       if b then s
       else logging s (warning ("Permission denied: " +:+ username u +:+
                                " tried to access " +:+ p))).
Proof.
  intros Hu. unfold require_permission, bind.
  rewrite has_permission_run, Hu.
  eexists. split; [done|].
  destruct (bool_decide _); [done|].
  unfold logger. run. by rewrite Hu.
Qed.

Lemma require_permission_answers_witness :
  current_user alice_logged_in
    = Some {| id := 2; username := "alice"; role := "technician";
              full_name := "Alice"; email := None;
              login_time := "2024-01-02 08:00:00" |} ∧
  ∃ b : bool,
    has_permission "add_users" alice_logged_in = (Ok b, alice_logged_in) ∧
    require_permission "add_users" alice_logged_in =
      (Ok b,
       if b then alice_logged_in
       else logging alice_logged_in
              (warning ("Permission denied: " +:+ "alice" +:+
                        " tried to access " +:+ "add_users"))).
Proof.
  split; [reflexivity|].
  exact (require_permission_answers alice_logged_in _ "add_users" eq_refl).
Defined.

(** X2: with nobody logged in, [require_permission] does not return
    [False] as [has_permission] does: building the warning fails, and the
    call raises [TypeError]. *)
Theorem require_permission_no_session (s : state) (p : string) :
  current_user s = None →
  has_permission p s = (Ok false, s) ∧
  require_permission p s = (Raise TypeError, s).
Proof.
  intros Hn. unfold require_permission, bind.
  rewrite has_permission_run, Hn. split; [done|]. run. by rewrite Hn.
Qed.

Lemma require_permission_no_session_witness :
  current_user logged_out = None ∧
  has_permission "view_patients" logged_out = (Ok false, logged_out) ∧
  require_permission "view_patients" logged_out = (Raise TypeError, logged_out).
Proof.
  split; [reflexivity|].
  exact (require_permission_no_session logged_out "view_patients" eq_refl).
Defined.

(** X3: [logout] ends the session whatever the state: afterwards nobody is
    logged in and every permission is denied; the database is untouched; one
    record goes to the logger when somebody was logged in, and with nobody
    logged in, or on a second call, nothing happens at all. *)
Theorem logout_ends_session (s : state) (p : string) :
  ∃ s' : state,
    logout s = (Ok tt, s') ∧
    current_user s' = None ∧
    db s' = db s ∧
    has_permission p s' = (Ok false, s') ∧
    logout s' = (Ok tt, s') ∧
    (current_user s = None → s' = s) ∧
    (∀ u, current_user s = Some u →
          logged s' = logged s ++ [info ("User logged out: " +:+ username u)]).
Proof.
  unfold logout, bind, gets.
  destruct (current_user s) as [u|] eqn:Hu.
  - unfold logger, set_current_user. run.
    eexists. split; [done|]. simpl.
    repeat split; try done. by intros u' [= <-].
  - exists s. run. rewrite Hu. repeat split; try done.
    by rewrite has_permission_run, Hu.
Qed.

Section sessions.
Context {bcrypt : BcryptLib}.

(** X4: what a login does to later permission checks: after a successful
    login every check is decided by the role stored in the user's row;
    after a failed one every check answers as it did before, so a session
    that was open stays in force. *)
Theorem login_sets_permissions (name : string) (password : list N)
    (now login_time : string) (s : state) :
  ∃ (outcome : option user_data) (s' : state),
    authenticate_user name password now login_time s = (Ok outcome, s') ∧
    match outcome with
    | Some session =>
        ∃ r, user_named name (db s) = Some r ∧
             role session = Users.role r ∧
             ∀ p, has_permission p s' =
                    (Ok (bool_decide
                           (p ∈ default [] (permissions !! Users.role r))), s')
    | None => ∀ p, (has_permission p s').1 = (has_permission p s).1
    end.
Proof.
  rewrite authenticate_user_run.
  destruct (user_named name (db s)) as [r|] eqn:Hr.
  2: { eexists None, _. split; [done|]. intros p.
       by rewrite !has_permission_run. }
  destruct (Users.is_active r); simpl.
  2: { eexists None, _. split; [done|]. intros p.
       by rewrite !has_permission_run. }
  destruct (Utf8.encode password) as [pw|].
  2: { eexists None, _. split; [done|]. intros p.
       by rewrite !has_permission_run. }
  destruct (bcrypt_checkpw pw (Users.password_hash r)) as [[]|].
  - eexists (Some _), _. split; [done|]. exists r.
    split; [done|]. split; [done|]. intros p. by rewrite has_permission_run.
  - eexists None, _. split; [done|]. intros p. by rewrite !has_permission_run.
  - eexists None, _. split; [done|]. intros p. by rewrite !has_permission_run.
Qed.

Lemma user_named_new_row (d : database) (row : Users.row) (seq : Z) :
  username_taken (Users.username row) d = false →
  user_named (Users.username row) (with_users d (users d ++ [row]) seq)
    = Some row.
Proof.
  intros Ht. unfold user_named. simpl.
  apply find_new_row; [exact Ht|]. by apply bool_decide_eq_true.
Qed.

(** X5: an identity that [create_user] stored can log in: under the
    contract of [bcrypt], a login with the same user name and password
    succeeds, its session carries the role and names given at creation, it
    replaces the session of the creator, and its permissions are those of
    the given role (none at all for a role outside the table). *)
Theorem created_user_can_log_in (name : string) (password : list N)
    (given_role given_name : string) (mail : option string)
    (salt : list byte) (now now' login_time : string) (s s1 : state) :
  Bcrypt_verifies →
  create_user name password given_role given_name mail salt now s
    = (Ok true, s1) →
  ∃ (session : user_data) (s2 : state),
    authenticate_user name password now' login_time s1
      = (Ok (Some session), s2) ∧
    username session = name ∧
    role session = given_role ∧
    full_name session = given_name ∧
    email session = mail ∧
    current_user s2 = Some session ∧
    ∀ p, has_permission p s2 =
           (Ok (bool_decide (p ∈ default [] (permissions !! given_role))), s2).
Proof.
  intros Hbc. rewrite create_user_run.
  destruct (has_permission "add_users" s).1 as [[]|]; [|done..].
  destruct (Utf8.encode password) as [pw|] eqn:Hpw; [|done].
  destruct (bcrypt_hashpw pw salt) as [h|] eqn:Hh; [|done].
  destruct (username_taken name (db s)) eqn:Ht; [done|].
  cbv zeta. intros [= <-].
  rewrite authenticate_user_run. cbn [db].
  rewrite (user_named_new_row (db s)
             (new_user (db s) name h given_role given_name mail now)) by done.
  cbn [new_user Users.is_active Users.password_hash negb].
  rewrite Hpw, (Hbc _ _ _ Hh).
  eexists _, _. split; [done|]. by repeat split.
Qed.

Lemma user_with_id_key (user_id : Z) (d : database) (r : Users.row) :
  user_with_id user_id d = Some r → Users.id r = user_id.
Proof.
  intros [Hp _]%find_holds. by apply bool_decide_eq_true in Hp.
Qed.

Lemma user_named_after_rehash (name : string) (user_id : Z) (h : list byte)
    (d : database) (seq : Z) :
  user_named name (with_users d (set_password_hash user_id h <$> users d) seq)
    = set_password_hash user_id h <$> user_named name d.
Proof.
  unfold user_named. simpl. apply find_fmap_stable.
  intros x. unfold set_password_hash. by case_decide.
Qed.

(** X6: after a successful [change_password] of an active identity the
    new verifier alone decides a login of that identity: an attempt
    succeeds exactly when [checkpw] accepts it against the hash of the new
    password; under the contract of [bcrypt] the new password itself is
    accepted. *)
Theorem changed_password_decides_login (user_id : Z)
    (old_password new_password : list N) (salt : list byte)
    (now login_time : string) (s s1 : state) (r : Users.row) :
  change_password user_id old_password new_password salt s = (Ok true, s1) →
  user_with_id user_id (db s) = Some r →
  user_named (Users.username r) (db s) = Some r →
  Users.is_active r = true →
  ∃ new new_hash : list byte,
    Utf8.encode new_password = Some new ∧
    bcrypt_hashpw new salt = Some new_hash ∧
    (∀ (attempt : list N) (a : list byte),
       Utf8.encode attempt = Some a →
       ∃ (outcome : option user_data) (s2 : state),
         authenticate_user (Users.username r) attempt now login_time s1
           = (Ok outcome, s2) ∧
         (is_Some outcome ↔ bcrypt_checkpw a new_hash = Some true) ∧
         (∀ session, outcome = Some session → id session = user_id)) ∧
    (Bcrypt_verifies →
     ∃ (session : user_data) (s2 : state),
       authenticate_user (Users.username r) new_password now login_time s1
         = (Ok (Some session), s2)).
Proof.
  intros Hch Hid Hname Hact. rewrite change_password_run, Hid in Hch.
  destruct (Utf8.encode old_password) as [old|]; [|done].
  destruct (bcrypt_checkpw old (Users.password_hash r)) as [[]|]; [|done..].
  destruct (Utf8.encode new_password) as [new|] eqn:Hnew; [|done].
  destruct (bcrypt_hashpw new salt) as [new_hash|] eqn:Hh; [|done].
  injection Hch as <-.
  pose proof (user_with_id_key _ _ _ Hid) as Hkey.
  assert (∀ (attempt : list N) (a : list byte),
            Utf8.encode attempt = Some a →
            ∃ (outcome : option user_data) (s2 : state),
              authenticate_user (Users.username r) attempt now login_time
                {| db := with_users (db s)
                           (set_password_hash user_id new_hash <$> users (db s))
                           (users_seq (db s));
                   current_user := current_user s;
                   logged := logged s ++
                     [info ("Password changed for user ID: "
                            +:+ pretty user_id)] |}
                = (Ok outcome, s2) ∧
              (is_Some outcome ↔ bcrypt_checkpw a new_hash = Some true) ∧
              (∀ session, outcome = Some session → id session = user_id))
    as Hdecides.
  { intros attempt a Ha. rewrite authenticate_user_run. cbn [db].
    rewrite user_named_after_rehash, Hname. cbn [fmap option_fmap option_map].
    assert (Users.password_hash (set_password_hash user_id new_hash r)
              = new_hash
            ∧ Users.is_active (set_password_hash user_id new_hash r) = true
            ∧ Users.id (set_password_hash user_id new_hash r) = user_id)
      as (Hhash' & Hact' & Hkey').
    { unfold set_password_hash. by rewrite decide_True. }
    rewrite Hact', Ha, Hhash'. cbn [negb].
    destruct (bcrypt_checkpw a new_hash) as [[]|].
    - eexists _, _. split; [done|]. split; [by split; eauto|].
      by intros session [= <-].
    - eexists _, _. split; [done|]. split; [|done].
      split; [by intros [? ?]|done].
    - eexists _, _. split; [done|]. split; [|done].
      split; [by intros [? ?]|done]. }
  exists new, new_hash. split; [done|]. split; [done|]. split; [exact Hdecides|].
  intros Hbc. destruct (Hdecides new_password new Hnew)
    as (outcome & s2 & Hrun & Hiff & _).
  destruct outcome as [session|].
  - by exists session, s2.
  - destruct (proj2 Hiff (Hbc _ _ _ Hh)) as [? ?]. done.
Qed.

Lemma usernames_after_update (f : Users.row → Users.row) (l : list Users.row) :
  (∀ r, Users.username (f r) = Users.username r) →
  Users.username <$> (f <$> l) = Users.username <$> l.
Proof. intros Hf. induction l as [|x l IH]; csimpl; [done|]. by rewrite Hf, IH. Qed.

Lemma ids_after_update (f : Users.row → Users.row) (l : list Users.row) :
  (∀ r, Users.id (f r) = Users.id r) →
  Users.id <$> (f <$> l) = Users.id <$> l.
Proof. intros Hf. induction l as [|x l IH]; csimpl; [done|]. by rewrite Hf, IH. Qed.

Lemma users_unique_update (d : database) (f : Users.row → Users.row) :
  (∀ r, Users.username (f r) = Users.username r) →
  (∀ r, Users.id (f r) = Users.id r) →
  users_unique d →
  users_unique (with_users d (f <$> users d) (users_seq d)).
Proof.
  intros Hn Hi [? ?]. unfold users_unique. simpl.
  by rewrite usernames_after_update, ids_after_update.
Qed.

Lemma users_unique_insert (d : database) (name : string) (h : list byte)
    (given_role given_name : string) (mail : option string) (now : string) :
  username_taken name d = false →
  users_unique d →
  let row := new_user d name h given_role given_name mail now in
  users_unique (with_users d (users d ++ [row]) (Users.id row)).
Proof.
  intros Ht [Hnames Hids]. unfold users_unique. simpl. rewrite !fmap_app.
  split; apply NoDup_app; (split; [done|]); simpl.
  - split; [|apply NoDup_singleton].
    intros x Hx ->%list_elem_of_singleton.
    by apply (existsb_false_not_in Users.username) in Ht.
  - split; [|apply NoDup_singleton].
    intros x Hx ->%list_elem_of_singleton.
    by apply next_rowid_fresh in Hx.
Qed.

(** X7: the constraints of the [users] table are kept: if user names and
    keys are pairwise distinct, they still are after a login, a password
    change or a user creation, whatever the outcome. *)
Theorem users_constraints_kept (name : string) (password other : list N)
    (given_role given_name : string) (mail : option string)
    (user_id : Z) (salt : list byte) (now login_time : string) (s : state) :
  users_unique (db s) →
  users_unique (db (authenticate_user name password now login_time s).2) ∧
  users_unique (db (change_password user_id password other salt s).2) ∧
  users_unique
    (db (create_user name password given_role given_name mail salt now s).2).
Proof.
  intros Hu. split; [|split].
  - rewrite authenticate_user_run.
    destruct (user_named name (db s)) as [r|]; [|done].
    destruct (Users.is_active r); simpl; [|done].
    destruct (Utf8.encode password) as [pw|]; [|done].
    destruct (bcrypt_checkpw pw (Users.password_hash r)) as [[]|]; [|done..].
    simpl. apply users_unique_update; [| |done];
      intros x; unfold set_last_login; by case_decide.
  - rewrite change_password_run.
    destruct (user_with_id user_id (db s)) as [r|]; [|done].
    destruct (Utf8.encode password) as [old|]; [|done].
    destruct (bcrypt_checkpw old (Users.password_hash r)) as [[]|]; [|done..].
    destruct (Utf8.encode other) as [new|]; [|done].
    destruct (bcrypt_hashpw new salt) as [h|]; [|done].
    simpl. apply users_unique_update; [| |done];
      intros x; unfold set_password_hash; by case_decide.
  - rewrite create_user_run.
    destruct (has_permission "add_users" s).1 as [[]|]; [|done..].
    destruct (Utf8.encode password) as [pw|]; [|done].
    destruct (bcrypt_hashpw pw salt) as [h|]; [|done].
    destruct (username_taken name (db s)) eqn:Ht; [done|].
    simpl. by apply users_unique_insert.
Qed.

End sessions.

Lemma standin_bcrypt_verifies : @Bcrypt_verifies StandIn.bcrypt.
Proof.
  intros pw salt hashed [= <-]. simpl. by rewrite bool_decide_eq_true_2.
Qed.

Lemma created_user_can_log_in_witness :
  @Bcrypt_verifies StandIn.bcrypt ∧
  ∃ s1 : state,
    create_user (bcrypt := StandIn.bcrypt)
      "carol" (StandIn.text "C4rol#pass") "radiologist" "Carol" None
      [] "2024-01-02 09:00:00" admin_logged_in = (Ok true, s1) ∧
    ∃ (session : user_data) (s2 : state),
      authenticate_user (bcrypt := StandIn.bcrypt)
        "carol" (StandIn.text "C4rol#pass")
        "2024-01-02 09:05:00" "2024-01-02 09:05:00" s1
        = (Ok (Some session), s2) ∧
      role session = "radiologist".
Proof.
  split; [exact standin_bcrypt_verifies|].
  set (s1 := (create_user (bcrypt := StandIn.bcrypt)
                "carol" (StandIn.text "C4rol#pass") "radiologist" "Carol"
                None [] "2024-01-02 09:00:00" admin_logged_in).2).
  assert (create_user (bcrypt := StandIn.bcrypt)
            "carol" (StandIn.text "C4rol#pass") "radiologist" "Carol" None
            [] "2024-01-02 09:00:00" admin_logged_in = (Ok true, s1))
    as Hcreate by (vm_compute; reflexivity).
  exists s1. split; [exact Hcreate|].
  destruct (created_user_can_log_in (bcrypt := StandIn.bcrypt)
              "carol" (StandIn.text "C4rol#pass") "radiologist" "Carol" None
              [] "2024-01-02 09:00:00" "2024-01-02 09:05:00"
              "2024-01-02 09:05:00" admin_logged_in s1
              standin_bcrypt_verifies Hcreate)
    as (session & s2 & Hlogin & _ & Hrole & _).
  exists session, s2. split; [exact Hlogin|exact Hrole].
Defined.

Lemma changed_password_decides_login_witness :
  ∃ s1 : state,
    change_password (bcrypt := StandIn.bcrypt)
      2 (StandIn.text "Sup3r$ecret!") (StandIn.text "N3w#pass") []
      alice_logged_in = (Ok true, s1) ∧
    user_with_id 2 (db alice_logged_in) = Some alice_row ∧
    user_named (Users.username alice_row) (db alice_logged_in)
      = Some alice_row ∧
    Users.is_active alice_row = true ∧
    ∃ (session : user_data) (s2 : state),
      authenticate_user (bcrypt := StandIn.bcrypt)
        (Users.username alice_row) (StandIn.text "N3w#pass")
        "2024-01-03 08:00:00" "2024-01-03 08:00:00" s1
        = (Ok (Some session), s2).
Proof.
  set (s1 := (change_password (bcrypt := StandIn.bcrypt)
                2 (StandIn.text "Sup3r$ecret!") (StandIn.text "N3w#pass") []
                alice_logged_in).2).
  assert (change_password (bcrypt := StandIn.bcrypt)
            2 (StandIn.text "Sup3r$ecret!") (StandIn.text "N3w#pass") []
            alice_logged_in = (Ok true, s1))
    as Hchange by (vm_compute; reflexivity).
  exists s1. split; [exact Hchange|].
  split; [reflexivity|]. split; [reflexivity|]. split; [reflexivity|].
  destruct (changed_password_decides_login (bcrypt := StandIn.bcrypt)
              2 (StandIn.text "Sup3r$ecret!") (StandIn.text "N3w#pass") []
              "2024-01-03 08:00:00" "2024-01-03 08:00:00"
              alice_logged_in s1 alice_row Hchange eq_refl eq_refl eq_refl)
    as (new & new_hash & _ & _ & _ & Hnew).
  exact (Hnew standin_bcrypt_verifies).
Defined.

Lemma users_constraints_kept_witness :
  users_unique (db admin_logged_in) ∧
  users_unique
    (db (create_user (bcrypt := StandIn.bcrypt)
           "carol" (StandIn.text "C4rol#pass") "radiologist" "Carol" None
           [] "2024-01-02 09:00:00" admin_logged_in).2).
Proof.
  assert (users_unique (db admin_logged_in)) as Hu.
  { split; decide_now. }
  split; [exact Hu|].
  exact (proj2 (proj2 (users_constraints_kept (bcrypt := StandIn.bcrypt)
                         "carol" (StandIn.text "C4rol#pass") []
                         "radiologist" "Carol" None 0 []
                         "2024-01-02 09:00:00" "2024-01-02 09:00:00"
                         admin_logged_in Hu))).
Defined.

(** ** The audit table only grows *)

Lemma audit_grows_refl (d d' : database) :
  audit_logs d' = audit_logs d → audit_logs_seq d' = audit_logs_seq d →
  audit_grows d d'.
Proof.
  intros Hl Hs. unfold audit_grows, audit_ordered. rewrite Hl, Hs. done.
Qed.

Lemma audit_grows_trans (d1 d2 d3 : database) :
  audit_grows d1 d2 → audit_grows d2 d3 → audit_grows d1 d3.
Proof. intros [? ?] [? ?]. split; [by etrans|auto]. Qed.

Lemma audit_grows_entry (d : database) (user_id : option Z)
    (action resource_type : string) (resource_id : Z) (details now : string) :
  audit_grows d
    (with_audit d (new_audit_log d user_id action resource_type resource_id
                     details now)).
Proof.
  destruct (next_rowid_above (audit_logs_seq d) (AuditLogs.id <$> audit_logs d))
    as [Hseq Hall].
  split; [by apply prefix_app_r|].
  intros [Hsorted Hbound]. unfold audit_ordered. simpl. rewrite fmap_app. simpl.
  split.
  - apply StronglySorted_app. split; [|split; [done|repeat constructor]].
    intros x y Hx ->%list_elem_of_singleton.
    rewrite Forall_forall in Hall. by apply Hall.
  - apply Forall_app. split; [|by repeat constructor].
    eapply Forall_impl; [exact Hall|]. simpl. lia.
Qed.

Section audit_table.
Context {crypto : FernetLib} {json : JsonLib}.

(** X8: the audit table is append-only.  Whatever [add_patient],
    [get_patient], [get_audit_logs], [add_usage_log] and [_log_audit_action]
    are given, and whether they return or raise, the rows the table held
    are still there, unchanged and at the front; and if the keys grew in
    insertion order they still do, each new key being above every earlier
    one. *)
Theorem audit_table_append_only (self : t) (data : gmap string pyval)
    (nonce : list byte) (now now_audit : string) (ext : string) (limit : Z)
    (user_id : Z) (actor : option Z) (action kind details : string)
    (equipment_id : option Z) (resource_id : Z) (d : database) :
  audit_grows d (add_patient self data nonce now now_audit d).2 ∧
  audit_grows d (get_patient self ext d).2 ∧
  audit_grows d (get_audit_logs limit d).2 ∧
  audit_grows d (add_usage_log user_id action details equipment_id now d).2 ∧
  audit_grows d
    (_log_audit_action actor action kind resource_id details now d).2.
Proof.
  split; [|split; [|split; [|split]]].
  - rewrite add_patient_run.
    destruct (_encrypt_data self (json_dumps data) nonce) as [enc|e];
      [|by apply audit_grows_refl].
    destruct (data !! "patient_id") as [key|]; [|by apply audit_grows_refl].
    rewrite insert_patient_run.
    destruct (bind_text key) as [x|e]; [|by apply audit_grows_refl].
    destruct (patient_id_taken x d); [by apply audit_grows_refl|].
    cbn [snd]. eapply audit_grows_trans; [|apply audit_grows_entry].
    by apply audit_grows_refl.
  - rewrite get_patient_run.
    destruct (patient_with_id ext d) as [r|]; [|by apply audit_grows_refl].
    destruct (_decrypt_data self (Patients.encrypted_data r)) as [text|e];
      [|by apply audit_grows_refl].
    destruct (json_loads text); by apply audit_grows_refl.
  - rewrite get_audit_logs_run. case_decide; by apply audit_grows_refl.
  - by apply audit_grows_refl.
  - apply audit_grows_entry.
Qed.


(** X10: storing a record does not disturb the others: a read of any other
    identifier returns after the [add_patient] what it returned before. *)
Theorem add_patient_keeps_other_records (self : t)
    (data : gmap string pyval) (nonce : list byte) (now now_audit : string)
    (d d1 : database) (pid : Z) (key : pyval) (ext other : string) :
  add_patient self data nonce now now_audit d = (Ok pid, d1) →
  data !! "patient_id" = Some key → bind_text key = Ok ext →
  other ≠ ext →
  (get_patient self other d1).1 = (get_patient self other d).1.
Proof.
  intros Hadd Hkey Hb Hne.
  apply add_patient_ok in Hadd
    as (enc & k & x & _ & Hk & Hx & Ht & _ & _ & ->).
  assert (x = ext) as -> by congruence.
  rewrite !get_patient_run. unfold patient_with_id.
  cbn [patients with_audit with_patient].
  rewrite find_skips_new_row.
  - destruct (find _ (patients d)) as [r|]; [|done].
    destruct (_decrypt_data self (Patients.encrypted_data r)) as [text|e];
      [|done].
    by destruct (json_loads text).
  - simpl. by apply bool_decide_eq_false.
Qed.

End audit_table.

Lemma put_jane_stored : put jane = (Ok 1%Z, (put jane).2).
Proof. vm_compute. reflexivity. Qed.


Lemma add_patient_keeps_other_records_witness :
  put jane = (Ok 1%Z, (put jane).2) ∧
  jane !! "patient_id" = Some (PyStr "P-100") ∧
  bind_text (PyStr "P-100") = Ok "P-100" ∧
  "P-200" ≠ "P-100" ∧
  (get_patient (crypto := StandIn.fernet) (json := StandIn.json)
     manager "P-200" (put jane).2).1
  = (get_patient (crypto := StandIn.fernet) (json := StandIn.json)
       manager "P-200" empty_db).1.
Proof.
  assert ("P-200" ≠ "P-100") as Hne by discriminate.
  split; [exact put_jane_stored|]. split; [reflexivity|].
  split; [reflexivity|]. split; [exact Hne|].
  exact (add_patient_keeps_other_records
           (crypto := StandIn.fernet) (json := StandIn.json)
           manager jane [] "2024-01-01 10:00:00" "2024-01-01 10:00:01"
           empty_db (put jane).2 1 (PyStr "P-100") "P-100" "P-200"
           put_jane_stored eq_refl eq_refl Hne).
Defined.

(** ** The search *)

Lemma str_in_empty (b : string) : str_in "" b = true.
Proof. by destruct b. Qed.

Lemma journaling_nil (s : DatabaseManagerExt.store) :
  DatabaseManagerExt.journaling s [] = s.
Proof. destruct s. unfold DatabaseManagerExt.journaling. simpl. by rewrite app_nil_r. Qed.

Lemma journaling_app (s : DatabaseManagerExt.store)
    (l1 l2 : list DatabaseManagerExt.log_record) :
  DatabaseManagerExt.journaling (DatabaseManagerExt.journaling s l1) l2
    = DatabaseManagerExt.journaling s (l1 ++ l2).
Proof. unfold DatabaseManagerExt.journaling. simpl. by rewrite app_assoc. Qed.

Section search.
Context {crypto : FernetLib} {json : JsonLib} {str : StrLib}.

Lemma search_rows_run (self : t) (term : string) (rows : list Patients.row)
    (results : list (gmap string pyval)) (s : DatabaseManagerExt.store) :
  DatabaseManagerExt.search_rows self term rows results s =
    (Ok (results ++ DatabaseManagerExt.search_hits self term rows),
     DatabaseManagerExt.journaling s
       (DatabaseManagerExt.search_errors self term rows)).
Proof.
  revert results s. induction rows as [|row rows IH]; intros results s.
  - simpl. unfold ret. by rewrite app_nil_r, journaling_nil.
  - cbn [DatabaseManagerExt.search_rows].
    unfold DatabaseManagerExt.search_hits, DatabaseManagerExt.search_errors.
    cbn [omap list_omap].
    destruct (DatabaseManagerExt.search_row self term row) as [e|[found|]].
    + unfold bind, DatabaseManagerExt.logger, modify. rewrite IH.
      by rewrite journaling_app.
    + rewrite IH. by rewrite <- app_assoc.
    + by rewrite IH.
Qed.

Lemma search_patients_run (self : t) (term : string)
    (s : DatabaseManagerExt.store) :
  DatabaseManagerExt.search_patients self term s =
    (Ok (DatabaseManagerExt.search_hits self term
           (patients (DatabaseManagerExt.tables s))),
     DatabaseManagerExt.journaling s
       (DatabaseManagerExt.search_errors self term
          (patients (DatabaseManagerExt.tables s)))).
Proof.
  unfold DatabaseManagerExt.search_patients, bind, gets.
  by rewrite search_rows_run.
Qed.

(** X11: [search_patients] never raises and never writes to the database.
    It returns the readable rows that match, and only those, in table
    order: a row that decrypts and parses to a dictionary whose name is
    text (the empty text when it has none) is returned, with the row's
    [id], [patient_id], [created_at] and [updated_at], when the lower-case
    term occurs in the lower-case name or identifier.  A row that cannot
    be decrypted or parsed, or whose name is no text, is left out and
    reported to the logger with what was caught, and nothing else is
    reported; the tables, the audit log among them, are as they were. *)
Theorem search_patients_skips_unreadable (self : t) (term : string)
    (s : DatabaseManagerExt.store) :
  let rows := patients (DatabaseManagerExt.tables s) in
  let shown (row : Patients.row) (data : gmap string pyval) :=
    <["updated_at" := PyStr (Patients.updated_at row)]>
    (<["created_at" := PyStr (Patients.created_at row)]>
    (<["patient_id" := PyStr (Patients.patient_id row)]>
    (<["id" := PyInt (Patients.id row)]> data))) in
  let matches (row : Patients.row) (name : string) :=
    str_in (str_lower term) (str_lower name)
    || str_in (str_lower term) (str_lower (Patients.patient_id row)) in
  let report := DatabaseManagerExt.error "Error decrypting patient data: " in
  ∃ (results : list (gmap string pyval))
    (errors : list DatabaseManagerExt.log_record),
    DatabaseManagerExt.search_patients self term s
      = (Ok results, DatabaseManagerExt.journaling s errors) ∧
    DatabaseManagerExt.tables (DatabaseManagerExt.journaling s errors)
      = DatabaseManagerExt.tables s ∧
    (length results + length errors ≤ length rows)%nat ∧
    ((λ found : gmap string pyval, found !! "id") <$> results)
      `sublist_of` ((λ row, Some (PyInt (Patients.id row))) <$> rows) ∧
    (∀ row, row ∈ rows →
       (∀ e, _decrypt_data self (Patients.encrypted_data row) = Raise e →
             report (DatabaseManagerExt.Raised e) ∈ errors) ∧
       (∀ text, _decrypt_data self (Patients.encrypted_data row) = Ok text →
          (∀ e, json_loads text = Raise e →
                report (DatabaseManagerExt.Raised e) ∈ errors) ∧
          (∀ data, json_loads text = Ok data →
             (∀ v, data !! "name" = Some v → (∀ name, v ≠ PyStr name) →
                   report DatabaseManagerExt.AttributeError ∈ errors) ∧
             (∀ name, default (PyStr "") (data !! "name") = PyStr name →
                      matches row name = true →
                      shown row data ∈ results)))) ∧
    (∀ found, found ∈ results →
       ∃ row text data name,
         row ∈ rows ∧
         _decrypt_data self (Patients.encrypted_data row) = Ok text ∧
         json_loads text = Ok data ∧
         default (PyStr "") (data !! "name") = PyStr name ∧
         matches row name = true ∧
         found = shown row data) ∧
    (∀ r, r ∈ errors →
       ∃ row c,
         row ∈ rows ∧ r = report c ∧
         ∀ text data name,
           _decrypt_data self (Patients.encrypted_data row) = Ok text →
           json_loads text = Ok data →
           default (PyStr "") (data !! "name") ≠ PyStr name).
Proof.
  cbv zeta.
  exists (DatabaseManagerExt.search_hits self term
            (patients (DatabaseManagerExt.tables s))),
    (DatabaseManagerExt.search_errors self term
       (patients (DatabaseManagerExt.tables s))).
  split; [apply search_patients_run|]. split; [done|].
  unfold DatabaseManagerExt.search_hits, DatabaseManagerExt.search_errors.
  split; [|split; [|split; [|split]]].
  - induction (patients (DatabaseManagerExt.tables s)) as [|row rows IH];
      [done|].
    cbn [omap list_omap].
    destruct (DatabaseManagerExt.search_row self term row) as [e|[found|]];
      simpl; lia.
  - induction (patients (DatabaseManagerExt.tables s)) as [|row rows IH];
      [done|].
    cbn [omap list_omap]. rewrite fmap_cons.
    destruct (DatabaseManagerExt.search_row self term row)
      as [e|[found|]] eqn:Hrow; [by apply sublist_cons| |by apply sublist_cons].
    cbn [fmap list_fmap].
    assert (found !! "id" = Some (PyInt (Patients.id row))) as ->;
      [|by apply sublist_skip].
    revert Hrow. unfold DatabaseManagerExt.search_row.
    destruct (_decrypt_data self (Patients.encrypted_data row)); [|done].
    destruct (json_loads a); [|done].
    destruct (DatabaseManagerExt.lowered_name a0); [|done].
    case_match; [|done]. intros [= <-].
    by rewrite !lookup_insert_ne, lookup_insert_eq by done.
  - intros row Hrow. split; [|intros text Hdec; split; [|intros data Hjson; split]].
    + intros e Hdec. apply list_elem_of_omap. exists row. split; [done|].
      unfold DatabaseManagerExt.search_row. by rewrite Hdec.
    + intros e Hjson. apply list_elem_of_omap. exists row. split; [done|].
      unfold DatabaseManagerExt.search_row. by rewrite Hdec, Hjson.
    + intros v Hv Hno. apply list_elem_of_omap. exists row. split; [done|].
      unfold DatabaseManagerExt.search_row, DatabaseManagerExt.lowered_name.
      rewrite Hdec, Hjson, Hv. simpl.
      destruct v as [| | |name]; [done..|]. by destruct (Hno name).
    + intros name Hname Hm. apply list_elem_of_omap. exists row.
      split; [done|].
      unfold DatabaseManagerExt.search_row, DatabaseManagerExt.lowered_name.
      by rewrite Hdec, Hjson, Hname, Hm.
  - intros found (row & Hrow & Hf)%list_elem_of_omap.
    revert Hf. unfold DatabaseManagerExt.search_row,
      DatabaseManagerExt.lowered_name.
    destruct (_decrypt_data self (Patients.encrypted_data row))
      as [text|] eqn:Hdec; [|done].
    destruct (json_loads text) as [data|] eqn:Hjson; [|done].
    destruct (default (PyStr "") (data !! "name")) as [| | |name] eqn:Hname;
      [done..|].
    destruct (_ || _) eqn:Hm; [|done]. intros [= <-].
    by exists row, text, data, name.
  - intros r (row & Hrow & Hr)%list_elem_of_omap.
    revert Hr. unfold DatabaseManagerExt.search_row,
      DatabaseManagerExt.lowered_name.
    destruct (_decrypt_data self (Patients.encrypted_data row))
      as [text|e] eqn:Hdec.
    2: { intros [= <-]. exists row, (DatabaseManagerExt.Raised e).
         split; [done|]. split; [done|]. intros text data name Hd.
         congruence. }
    destruct (json_loads text) as [data|e] eqn:Hjson.
    2: { intros [= <-]. exists row, (DatabaseManagerExt.Raised e).
         split; [done|]. split; [done|]. intros text' data name Hd Hj.
         congruence. }
    destruct (default (PyStr "") (data !! "name")) as [| | |name] eqn:Hname.
    4: { by destruct (_ || _). }
    all: intros [= <-]; exists row, DatabaseManagerExt.AttributeError;
      (split; [done|]); (split; [done|]);
      intros text' data' name' Hd Hj; congruence.
Qed.

Lemma search_row_empty_term (self : t) (row : Patients.row) :
  str_lower "" = "" →
  DatabaseManagerExt.search_row self "" row ≠ inr None.
Proof.
  intros Hlow. unfold DatabaseManagerExt.search_row.
  destruct (_decrypt_data self (Patients.encrypted_data row)) as [text|e];
    [|done].
  destruct (json_loads text) as [data|e]; [|done].
  destruct (DatabaseManagerExt.lowered_name data) as [name|]; [|done].
  by rewrite Hlow, str_in_empty.
Qed.

(** X12: the empty search term lists the whole table: provided the lower
    case of the empty text is empty, every row is either returned or
    reported to the logger as unreadable, none is filtered out. *)
Theorem search_patients_empty_term (self : t) (s : DatabaseManagerExt.store) :
  str_lower "" = "" →
  ∃ results errors,
    DatabaseManagerExt.search_patients self "" s
      = (Ok results, DatabaseManagerExt.journaling s errors) ∧
    (length results + length errors
     = length (patients (DatabaseManagerExt.tables s)))%nat.
Proof.
  intros Hlow. eexists _, _.
  split; [apply search_patients_run|].
  unfold DatabaseManagerExt.search_hits, DatabaseManagerExt.search_errors.
  induction (patients (DatabaseManagerExt.tables s)) as [|row rows IH];
    [done|].
  cbn [omap list_omap].
  pose proof (search_row_empty_term self row Hlow) as Hrow.
  destruct (DatabaseManagerExt.search_row self "" row) as [e|[found|]];
    [simpl; lia|simpl; lia|done].
Qed.

(** X13: a record that was added is found: a search whose term, in lower
    case, occurs in the lower case of the record's name or of its
    identifier returns, after the rows it returned before, the record with
    the row's [id], [patient_id], [created_at] and [updated_at]. *)
Theorem added_patient_is_found (self : t) (data : gmap string pyval)
    (nonce : list byte) (now now_audit term : string) (d d1 : database)
    (pid : Z) (key : pyval) (ext name : string)
    (s : DatabaseManagerExt.store) :
  Fernet_roundtrip →
  json_loads (json_dumps data) = Ok data →
  data !! "patient_id" = Some key → bind_text key = Ok ext →
  DatabaseManagerExt.lowered_name data = Some name →
  str_in (str_lower term) name || str_in (str_lower term) (str_lower ext)
    = true →
  add_patient self data nonce now now_audit d = (Ok pid, d1) →
  ∃ before,
    (DatabaseManagerExt.search_patients self term
       (DatabaseManagerExt.with_tables s d)).1 = Ok before ∧
    (DatabaseManagerExt.search_patients self term
       (DatabaseManagerExt.with_tables s d1)).1 =
      Ok (before ++
          [<["updated_at" := PyStr now]>
           (<["created_at" := PyStr now]>
           (<["patient_id" := PyStr ext]>
           (<["id" := PyInt pid]> data)))]).
Proof.
  intros Hrt Hjson Hkey Hb Hname Hmatch Hadd.
  apply add_patient_ok in Hadd
    as (enc & k & x & Henc & Hk & Hx & _ & Hpid & _ & ->).
  assert (x = ext) as -> by congruence. cbv zeta in Hpid. subst pid.
  exists (DatabaseManagerExt.search_hits self term (patients d)).
  rewrite !search_patients_run.
  split; [done|]. cbn [fst DatabaseManagerExt.tables
    DatabaseManagerExt.with_tables patients with_audit with_patient].
  unfold DatabaseManagerExt.search_hits. rewrite omap_app. do 2 f_equal.
  cbn [omap list_omap]. unfold DatabaseManagerExt.search_row.
  cbn [new_patient Patients.encrypted_data Patients.patient_id Patients.id
       Patients.created_at Patients.updated_at].
  rewrite (decrypt_of_encrypt _ _ _ _ Hrt Henc), Hjson, Hname, Hmatch.
  done.
Qed.

End search.

Lemma search_patients_empty_term_witness :
  @str_lower StandInStr.str "" = "" ∧
  ∃ results errors,
    DatabaseManagerExt.search_patients
      (crypto := StandIn.fernet) (json := StandIn.json) (str := StandInStr.str)
      manager "" (DatabaseManagerExt.with_tables empty_store (put jane).2)
      = (Ok results,
         DatabaseManagerExt.journaling
           (DatabaseManagerExt.with_tables empty_store (put jane).2) errors) ∧
    (length results + length errors
     = length (patients (put jane).2))%nat.
Proof.
  split; [reflexivity|].
  exact (search_patients_empty_term
           (crypto := StandIn.fernet) (json := StandIn.json)
           (str := StandInStr.str) manager
           (DatabaseManagerExt.with_tables empty_store (put jane).2) eq_refl).
Defined.

Lemma added_patient_is_found_witness :
  @Fernet_roundtrip StandIn.fernet ∧
  StandIn.loads (StandIn.dumps jane) = Ok jane ∧
  jane !! "patient_id" = Some (PyStr "P-100") ∧
  bind_text (PyStr "P-100") = Ok "P-100" ∧
  DatabaseManagerExt.lowered_name (str := StandInStr.str) jane
    = Some "jane doe" ∧
  str_in (StandInStr.lower "DOE") "jane doe"
    || str_in (StandInStr.lower "DOE") (StandInStr.lower "P-100") = true ∧
  put jane = (Ok 1%Z, (put jane).2) ∧
  ∃ before,
    (DatabaseManagerExt.search_patients
       (crypto := StandIn.fernet) (json := StandIn.json)
       (str := StandInStr.str) manager "DOE"
       (DatabaseManagerExt.with_tables empty_store empty_db)).1 = Ok before ∧
    (DatabaseManagerExt.search_patients
       (crypto := StandIn.fernet) (json := StandIn.json)
       (str := StandInStr.str) manager "DOE"
       (DatabaseManagerExt.with_tables empty_store (put jane).2)).1 =
      Ok (before ++
          [<["updated_at" := PyStr "2024-01-01 10:00:00"]>
           (<["created_at" := PyStr "2024-01-01 10:00:00"]>
           (<["patient_id" := PyStr "P-100"]>
           (<["id" := PyInt 1]> jane)))]).
Proof.
  split; [exact standin_fernet_roundtrip|].
  split; [exact (standin_json_roundtrip jane)|].
  split; [reflexivity|]. split; [reflexivity|]. split; [reflexivity|].
  split; [reflexivity|]. split; [exact put_jane_stored|].
  exact (added_patient_is_found
           (crypto := StandIn.fernet) (json := StandIn.json)
           (str := StandInStr.str) manager jane []
           "2024-01-01 10:00:00" "2024-01-01 10:00:01" "DOE"
           empty_db (put jane).2 1 (PyStr "P-100") "P-100" "jane doe"
           empty_store standin_fernet_roundtrip (standin_json_roundtrip jane)
           eq_refl eq_refl eq_refl eq_refl put_jane_stored).
Defined.

(** ** Image records *)

#[global] Instance later_first_total : Total DatabaseManagerExt.later_first.
Proof. intros a b. unfold DatabaseManagerExt.later_first. apply total, _. Qed.

Lemma add_xray_image_run (patient_id : Z)
    (image_path position body_part : string) (technician_id : Z)
    (notes now now_audit : string) (s : DatabaseManagerExt.store) :
  let row := DatabaseManagerExt.new_image s patient_id image_path position
               body_part technician_id notes now in
  DatabaseManagerExt.add_xray_image patient_id image_path position body_part
    technician_id notes now now_audit s =
    if decide (int64 patient_id ∧ int64 technician_id) then
      (Ok (XrayImages.id row),
       {| DatabaseManagerExt.tables :=
            with_audit (DatabaseManagerExt.tables s)
              (new_audit_log (DatabaseManagerExt.tables s)
                 (Some technician_id) "CREATE" "xray_image"
                 (XrayImages.id row)
                 ("New X-ray image added: " +:+ body_part +:+ " - "
                  +:+ position) now_audit);
          DatabaseManagerExt.xray_images :=
            DatabaseManagerExt.xray_images s ++ [row];
          DatabaseManagerExt.xray_images_seq := XrayImages.id row;
          DatabaseManagerExt.journal := DatabaseManagerExt.journal s |})
    else (Raise OverflowError, s).
Proof.
  cbv zeta. unfold DatabaseManagerExt.add_xray_image, bind_int, bind, lift.
  destruct (decide (int64 patient_id)) as [Hp|Hp];
    [|by rewrite decide_False by tauto].
  destruct (decide (int64 technician_id)) as [Ht|Ht];
    [|by rewrite decide_False by tauto].
  by rewrite decide_True by done.
Qed.

Lemma get_patient_xrays_run (patient_id : Z) (s : DatabaseManagerExt.store) :
  DatabaseManagerExt.get_patient_xrays patient_id s =
    if decide (int64 patient_id) then
      (Ok (DatabaseManagerExt.xray_of_row <$>
           merge_sort DatabaseManagerExt.later_first
             (filter (λ r, XrayImages.patient_id r = patient_id)
                     (DatabaseManagerExt.xray_images s))), s)
    else (Raise OverflowError, s).
Proof.
  unfold DatabaseManagerExt.get_patient_xrays, bind_int, bind, lift.
  by case_decide.
Qed.

(** X14: [get_patient_xrays] only reads.  For a patient key that fits a
    signed 64-bit integer it returns the images of that one patient, each
    once, newest acquisition first; a key that does not fit is refused
    when it is bound to the query, and the call raises [OverflowError].
    Either way the store, its audit log included, is left as it was. *)
Theorem get_patient_xrays_newest_first (patient_id : Z)
    (s : DatabaseManagerExt.store) :
  (int64 patient_id →
   ∃ rows : list XrayImages.row,
     DatabaseManagerExt.get_patient_xrays patient_id s
       = (Ok (DatabaseManagerExt.xray_of_row <$> rows), s) ∧
     rows ≡ₚ filter (λ r, XrayImages.patient_id r = patient_id)
                    (DatabaseManagerExt.xray_images s) ∧
     Sorted DatabaseManagerExt.later_first rows ∧
     (∀ r, r ∈ rows ↔
           r ∈ DatabaseManagerExt.xray_images s ∧
           XrayImages.patient_id r = patient_id)) ∧
  (¬ int64 patient_id →
   DatabaseManagerExt.get_patient_xrays patient_id s
     = (Raise OverflowError, s)).
Proof.
  rewrite get_patient_xrays_run.
  split; [|intros Hout; by rewrite decide_False].
  intros Hin. rewrite decide_True by done.
  eexists. split; [done|].
  split; [apply merge_sort_Permutation|].
  split; [apply Sorted_merge_sort, _|].
  intros r. rewrite merge_sort_Permutation, list_elem_of_filter. tauto.
Qed.

(** X15: an image that was added is listed.  When the patient key and the
    technician key fit a signed 64-bit integer, [add_xray_image] returns,
    with a key no image had; the listing of that patient then holds the
    image with the given path, position, body part, notes and technician,
    and neither annotations nor radiologist; the listings of the other
    patients are as before; and the audit log gained exactly one entry,
    [CREATE] of an [xray_image], in the technician's name.  When one of
    the two keys does not fit, the call raises [OverflowError] and stores
    nothing: no image and no audit entry. *)
Theorem added_image_is_listed (patient_id : Z)
    (image_path position body_part : string) (technician_id : Z)
    (notes now now_audit : string) (s : DatabaseManagerExt.store) :
  (int64 patient_id → int64 technician_id →
   ∃ (image_id : Z) (s' : DatabaseManagerExt.store)
     (listing : list DatabaseManagerExt.xray) (entry : AuditLogs.row),
     DatabaseManagerExt.add_xray_image patient_id image_path position
       body_part technician_id notes now now_audit s = (Ok image_id, s') ∧
     (image_id ∉ XrayImages.id <$> DatabaseManagerExt.xray_images s) ∧
     DatabaseManagerExt.get_patient_xrays patient_id s' = (Ok listing, s') ∧
     {| DatabaseManagerExt.xray_id := image_id;
        DatabaseManagerExt.xray_image_path := image_path;
        DatabaseManagerExt.xray_position := position;
        DatabaseManagerExt.xray_body_part := body_part;
        DatabaseManagerExt.xray_acquisition_date := now;
        DatabaseManagerExt.xray_notes := Some notes;
        DatabaseManagerExt.xray_annotations := None;
        DatabaseManagerExt.xray_technician_id := Some technician_id;
        DatabaseManagerExt.xray_radiologist_id := None |} ∈ listing ∧
     (∀ other, other ≠ patient_id →
        (DatabaseManagerExt.get_patient_xrays other s').1
        = (DatabaseManagerExt.get_patient_xrays other s).1) ∧
     audit_logs (DatabaseManagerExt.tables s')
       = audit_logs (DatabaseManagerExt.tables s) ++ [entry] ∧
     AuditLogs.user_id entry = Some technician_id ∧
     AuditLogs.action entry = "CREATE" ∧
     AuditLogs.resource_type entry = "xray_image" ∧
     AuditLogs.resource_id entry = image_id ∧
     AuditLogs.details entry
       = "New X-ray image added: " +:+ body_part +:+ " - " +:+ position) ∧
  (¬ (int64 patient_id ∧ int64 technician_id) →
   DatabaseManagerExt.add_xray_image patient_id image_path position
     body_part technician_id notes now now_audit s
     = (Raise OverflowError, s)).
Proof.
  rewrite add_xray_image_run. cbv zeta.
  split; [|intros Hout; by rewrite decide_False].
  intros Hp Ht. rewrite decide_True by done.
  set (row := DatabaseManagerExt.new_image s patient_id image_path position
                body_part technician_id notes now).
  eexists _, _, _, _. split; [done|].
  split; [apply next_rowid_fresh|].
  split; [by rewrite get_patient_xrays_run, decide_True|].
  split; [|split; [|by repeat split]].
  - cbn [DatabaseManagerExt.xray_images].
    apply (list_elem_of_fmap_2 DatabaseManagerExt.xray_of_row _ row).
    rewrite merge_sort_Permutation, list_elem_of_filter.
    split; [done|]. apply elem_of_app. right. by apply list_elem_of_singleton.
  - intros other Hne. rewrite !get_patient_xrays_run.
    case_decide; [|done].
    cbn [fst DatabaseManagerExt.xray_images]. rewrite filter_app.
    rewrite (filter_singleton_False _ row []), app_nil_r; [done|].
    cbn. congruence.
Qed.

Lemma update_image_annotations_run (image_id : Z) (annotations : string)
    (user_id : Z) (now_audit : string) (s : DatabaseManagerExt.store) :
  DatabaseManagerExt.update_image_annotations image_id annotations user_id
    now_audit s =
    if decide (int64 image_id ∧ int64 user_id) then
      (Ok tt,
       {| DatabaseManagerExt.tables :=
            with_audit (DatabaseManagerExt.tables s)
              (new_audit_log (DatabaseManagerExt.tables s) (Some user_id)
                 "UPDATE" "xray_image" image_id "Image annotations updated"
                 now_audit);
          DatabaseManagerExt.xray_images :=
            DatabaseManagerExt.annotate image_id annotations user_id
              <$> DatabaseManagerExt.xray_images s;
          DatabaseManagerExt.xray_images_seq :=
            DatabaseManagerExt.xray_images_seq s;
          DatabaseManagerExt.journal := DatabaseManagerExt.journal s |})
    else (Raise OverflowError, s).
Proof.
  unfold DatabaseManagerExt.update_image_annotations, bind_int, bind, lift.
  destruct (decide (int64 user_id)) as [Hu|Hu];
    [|by rewrite decide_False by tauto].
  destruct (decide (int64 image_id)) as [Hi|Hi];
    [|by rewrite decide_False by tauto].
  by rewrite decide_True by done.
Qed.

(** X16: [update_image_annotations] writes its [UPDATE] audit entry whether
    or not the image exists.  When the image key and the user key fit a
    signed 64-bit integer the call returns and the entry is written: when
    no image has the key, no image changes and the entry is written all
    the same; when one has, it is listed afterwards with the annotations
    and the annotating user as radiologist, and every image with another
    key is untouched.  When one of the two keys does not fit, the call
    raises [OverflowError] before anything is written: no image changes
    and no entry is made. *)
Theorem update_image_annotations_always_audited (image_id : Z)
    (annotations : string) (user_id : Z) (now_audit : string)
    (s : DatabaseManagerExt.store) :
  (int64 image_id → int64 user_id →
   ∃ (s' : DatabaseManagerExt.store) (entry : AuditLogs.row),
     DatabaseManagerExt.update_image_annotations image_id annotations user_id
       now_audit s = (Ok tt, s') ∧
     audit_logs (DatabaseManagerExt.tables s')
       = audit_logs (DatabaseManagerExt.tables s) ++ [entry] ∧
     AuditLogs.user_id entry = Some user_id ∧
     AuditLogs.action entry = "UPDATE" ∧
     AuditLogs.resource_id entry = image_id ∧
     (image_id ∉ (XrayImages.id <$> DatabaseManagerExt.xray_images s) →
        DatabaseManagerExt.xray_images s'
        = DatabaseManagerExt.xray_images s) ∧
     (∀ r, r ∈ DatabaseManagerExt.xray_images s →
           XrayImages.id r ≠ image_id →
           r ∈ DatabaseManagerExt.xray_images s') ∧
     (∀ r, r ∈ DatabaseManagerExt.xray_images s →
           XrayImages.id r = image_id →
        ∃ shown,
          shown ∈ (DatabaseManagerExt.xray_of_row <$>
                   merge_sort DatabaseManagerExt.later_first
                     (filter (λ x, XrayImages.patient_id x
                                   = XrayImages.patient_id r)
                             (DatabaseManagerExt.xray_images s'))) ∧
          DatabaseManagerExt.xray_id shown = image_id ∧
          DatabaseManagerExt.xray_annotations shown = Some annotations ∧
          DatabaseManagerExt.xray_radiologist_id shown = Some user_id ∧
          DatabaseManagerExt.xray_image_path shown
            = XrayImages.image_path r)) ∧
  (¬ (int64 image_id ∧ int64 user_id) →
   DatabaseManagerExt.update_image_annotations image_id annotations user_id
     now_audit s = (Raise OverflowError, s)).
Proof.
  rewrite update_image_annotations_run.
  split; [|intros Hout; by rewrite decide_False].
  intros Hi Hu. rewrite decide_True by done.
  eexists _, _. split; [done|]. cbn [DatabaseManagerExt.tables
    DatabaseManagerExt.xray_images with_audit audit_logs].
  split; [done|]. split; [done|]. split; [done|]. split; [done|].
  split; [|split].
  - intros Hnone.
    induction (DatabaseManagerExt.xray_images s) as [|x l IH]; [done|].
    csimpl in *. apply not_elem_of_cons in Hnone as [Hx Hl].
    rewrite IH by done. unfold DatabaseManagerExt.annotate at 1.
    by rewrite decide_False by congruence.
  - intros r Hr Hne.
    apply list_elem_of_fmap. exists r. split; [|done].
    unfold DatabaseManagerExt.annotate. by rewrite decide_False.
  - intros r Hr Hkey.
    exists (DatabaseManagerExt.xray_of_row
              (DatabaseManagerExt.annotate image_id annotations user_id r)).
    assert (DatabaseManagerExt.annotate image_id annotations user_id r
            = {| XrayImages.id := XrayImages.id r;
                 XrayImages.patient_id := XrayImages.patient_id r;
                 XrayImages.image_path := XrayImages.image_path r;
                 XrayImages.position := XrayImages.position r;
                 XrayImages.body_part := XrayImages.body_part r;
                 XrayImages.dicom_data := XrayImages.dicom_data r;
                 XrayImages.technician_id := XrayImages.technician_id r;
                 XrayImages.radiologist_id := Some user_id;
                 XrayImages.acquisition_date := XrayImages.acquisition_date r;
                 XrayImages.notes := XrayImages.notes r;
                 XrayImages.annotations := Some annotations |}) as Hann.
    { unfold DatabaseManagerExt.annotate. by rewrite decide_True. }
    split.
    + apply list_elem_of_fmap_2.
      rewrite merge_sort_Permutation, list_elem_of_filter. split.
      * by rewrite Hann.
      * apply list_elem_of_fmap. by exists r.
    + rewrite Hann. by repeat split.
Qed.

(** ** The default administrator *)

Lemma find_none_existsb {A} (P : A → bool) (l : list A) :
  find P l = None → existsb P l = false.
Proof.
  induction l as [|x l IH]; [done|]. simpl.
  destruct (P x); [done|]. exact IH.
Qed.

Section default_admin.
Context {bcrypt : BcryptLib}.

Lemma initialize_database_run (salt : list byte) (now : string)
    (s : DatabaseManagerExt.store) :
  let s0 := DatabaseManagerExt.journaling s
              [DatabaseManagerExt.info
                 "Database tables created successfully"] in
  DatabaseManagerExt.initialize_database salt now s =
    match user_named "admin" (DatabaseManagerExt.tables s) with
    | Some _ => (Ok tt, s0)
    | None =>
        match Utf8.encode (str_literal "Admin123!") with
        | None => (Raise UnicodeEncodeError, s0)
        | Some pw =>
            match bcrypt_hashpw pw salt with
            | None => (Raise ValueError, s0)
            | Some h =>
                let d := DatabaseManagerExt.tables s in
                let row := new_user d "admin" h "admin"
                             "System Administrator"
                             (Some "admin@hospital.com") now in
                (Ok tt,
                 DatabaseManagerExt.journaling
                   (DatabaseManagerExt.with_tables s0
                      (with_users d (users d ++ [row]) (Users.id row)))
                   [DatabaseManagerExt.info "Default admin user created"])
            end
        end
    end.
Proof.
  unfold DatabaseManagerExt.initialize_database,
    DatabaseManagerExt._create_default_admin, DatabaseManagerExt.logger,
    DatabaseManagerExt.on_tables, str_encode, bind, ret, raise, gets, modify,
    lift, or_raise.
  cbv beta zeta. cbn [DatabaseManagerExt.tables DatabaseManagerExt.journaling].
  destruct (user_named "admin" (DatabaseManagerExt.tables s)); [done|].
  destruct (Utf8.encode (str_literal "Admin123!")) as [pw|]; [|done].
  by destruct (bcrypt_hashpw pw salt).
Qed.

(** X17: [initialize_database] makes an administrator once.  After a run
    that returned, a row named [admin] exists; a row that was there before
    is left as it was, hash and activity flag included, so a changed
    password is not reset; every later run returns and leaves all tables
    as they are.  A run adds at most that one user row, keeps the
    uniqueness of names and keys, and touches no other table: patients,
    both logs and the images are as they were. *)
Theorem initialize_database_once (salt : list byte) (now : string)
    (s s1 : DatabaseManagerExt.store) :
  DatabaseManagerExt.initialize_database salt now s = (Ok tt, s1) →
  is_Some (user_named "admin" (DatabaseManagerExt.tables s1)) ∧
  (∀ r, user_named "admin" (DatabaseManagerExt.tables s) = Some r →
        DatabaseManagerExt.tables s1 = DatabaseManagerExt.tables s) ∧
  (∀ salt' now', ∃ s2,
     DatabaseManagerExt.initialize_database salt' now' s1 = (Ok tt, s2) ∧
     DatabaseManagerExt.tables s2 = DatabaseManagerExt.tables s1 ∧
     DatabaseManagerExt.xray_images s2 = DatabaseManagerExt.xray_images s1) ∧
  (users (DatabaseManagerExt.tables s1) = users (DatabaseManagerExt.tables s)
   ∨ ∃ row, users (DatabaseManagerExt.tables s1)
              = users (DatabaseManagerExt.tables s) ++ [row] ∧
            Users.username row = "admin" ∧ Users.role row = "admin" ∧
            Users.is_active row = true) ∧
  (users_unique (DatabaseManagerExt.tables s) →
   users_unique (DatabaseManagerExt.tables s1)) ∧
  patients (DatabaseManagerExt.tables s1)
    = patients (DatabaseManagerExt.tables s) ∧
  audit_logs (DatabaseManagerExt.tables s1)
    = audit_logs (DatabaseManagerExt.tables s) ∧
  usage_logs (DatabaseManagerExt.tables s1)
    = usage_logs (DatabaseManagerExt.tables s) ∧
  DatabaseManagerExt.xray_images s1 = DatabaseManagerExt.xray_images s.
Proof.
  intros Hrun.
  assert (is_Some (user_named "admin" (DatabaseManagerExt.tables s1)) ∧
          (∀ r, user_named "admin" (DatabaseManagerExt.tables s) = Some r →
                DatabaseManagerExt.tables s1 = DatabaseManagerExt.tables s) ∧
          (users (DatabaseManagerExt.tables s1)
             = users (DatabaseManagerExt.tables s)
           ∨ ∃ row, users (DatabaseManagerExt.tables s1)
                      = users (DatabaseManagerExt.tables s) ++ [row] ∧
                    Users.username row = "admin" ∧ Users.role row = "admin" ∧
                    Users.is_active row = true) ∧
          (users_unique (DatabaseManagerExt.tables s) →
           users_unique (DatabaseManagerExt.tables s1)) ∧
          patients (DatabaseManagerExt.tables s1)
            = patients (DatabaseManagerExt.tables s) ∧
          audit_logs (DatabaseManagerExt.tables s1)
            = audit_logs (DatabaseManagerExt.tables s) ∧
          usage_logs (DatabaseManagerExt.tables s1)
            = usage_logs (DatabaseManagerExt.tables s) ∧
          DatabaseManagerExt.xray_images s1
            = DatabaseManagerExt.xray_images s)
    as (Hadmin & ? & ? & ? & ? & ? & ? & ?).
  { revert Hrun. rewrite initialize_database_run. cbv zeta.
    destruct (user_named "admin" (DatabaseManagerExt.tables s)) as [r|] eqn:Hr.
    - intros [= <-]. simpl. rewrite Hr. split; [by eexists|].
      split; [done|]. split; [by left|]. done.
    - destruct (Utf8.encode (str_literal "Admin123!")) as [pw|]; [|done].
      destruct (bcrypt_hashpw pw salt) as [h|]; [|done].
      intros [= <-]. apply find_none_existsb in Hr.
      cbn [DatabaseManagerExt.tables DatabaseManagerExt.journaling
           DatabaseManagerExt.with_tables DatabaseManagerExt.xray_images].
      split.
      { erewrite (user_named_new_row (DatabaseManagerExt.tables s)
                    (new_user _ "admin" h "admin" _ _ now)); [by eexists|].
        exact Hr. }
      split; [done|]. split; [right; by eexists|].
      split; [|done]. intros Hu. by apply users_unique_insert. }
  split; [done|]. split; [done|]. split; [|done].
  intros salt' now'. rewrite initialize_database_run. cbv zeta.
  destruct Hadmin as [r ->]. by eexists.
Qed.

(** X18: the administrator [initialize_database] made can log in: on a
    database without a row named [admin], after a run that returned and
    under the contract of [bcrypt], a login as [admin] with the password
    ["Admin123!"] succeeds; its session has the role [admin] and the full
    name [System Administrator], and holds every permission of the table's
    [admin] set, the management of users and of the system among them. *)
Theorem default_admin_can_log_in (salt : list byte)
    (now now' login_time : string) (s s1 : DatabaseManagerExt.store)
    (a : state) :
  Bcrypt_verifies →
  user_named "admin" (DatabaseManagerExt.tables s) = None →
  DatabaseManagerExt.initialize_database salt now s = (Ok tt, s1) →
  db a = DatabaseManagerExt.tables s1 →
  ∃ (session : user_data) (a' : state),
    authenticate_user "admin" (str_literal "Admin123!") now' login_time a
      = (Ok (Some session), a') ∧
    role session = "admin" ∧
    full_name session = "System Administrator" ∧
    current_user a' = Some session ∧
    (∀ p ps, permissions !! "admin" = Some ps → p ∈ ps →
             has_permission p a' = (Ok true, a')) ∧
    has_permission "add_users" a' = (Ok true, a') ∧
    has_permission "system_admin" a' = (Ok true, a').
Proof.
  intros Hbc Hnone. rewrite initialize_database_run, Hnone. cbv zeta.
  destruct (Utf8.encode (str_literal "Admin123!")) as [pw|] eqn:Hpw; [|done].
  destruct (bcrypt_hashpw pw salt) as [h|] eqn:Hh; [|done].
  intros [= <-] Hdb. rewrite authenticate_user_run, Hdb.
  cbn [DatabaseManagerExt.tables DatabaseManagerExt.journaling
       DatabaseManagerExt.with_tables].
  rewrite (user_named_new_row (DatabaseManagerExt.tables s)
             (new_user (DatabaseManagerExt.tables s) "admin" h "admin"
                "System Administrator" (Some "admin@hospital.com") now))
    by (by apply find_none_existsb).
  cbn [new_user Users.is_active Users.password_hash negb].
  rewrite Hpw, (Hbc _ _ _ Hh).
  eexists _, _. split; [done|]. do 3 (split; [done|]).
  match goal with |- (∀ p ps, _ → _ → has_permission p ?A = _) ∧ _ =>
    assert (∀ p ps, permissions !! "admin" = Some ps → p ∈ ps →
                    has_permission p A = (Ok true, A)) as Hall
  end.
  { intros p ps Hps Hp. rewrite has_permission_run.
    cbn [current_user role session_of Users.role new_user].
    f_equal. f_equal. apply bool_decide_eq_true. by rewrite Hps. }
  split; [exact Hall|].
  split; (eapply Hall; [reflexivity|decide_now]).
Qed.

End default_admin.

Lemma initialize_database_once_witness :
  ∃ s1 : DatabaseManagerExt.store,
    DatabaseManagerExt.initialize_database (bcrypt := StandIn.bcrypt)
      [] "2024-01-01 00:00:00" empty_store = (Ok tt, s1) ∧
    is_Some (user_named "admin" (DatabaseManagerExt.tables s1)) ∧
    ∃ s2,
      DatabaseManagerExt.initialize_database (bcrypt := StandIn.bcrypt)
        [] "2024-02-01 00:00:00" s1 = (Ok tt, s2) ∧
      DatabaseManagerExt.tables s2 = DatabaseManagerExt.tables s1.
Proof.
  set (s1 := (DatabaseManagerExt.initialize_database
                (bcrypt := StandIn.bcrypt) [] "2024-01-01 00:00:00"
                empty_store).2).
  assert (DatabaseManagerExt.initialize_database (bcrypt := StandIn.bcrypt)
            [] "2024-01-01 00:00:00" empty_store = (Ok tt, s1))
    as Hrun by (vm_compute; reflexivity).
  exists s1. split; [exact Hrun|].
  destruct (initialize_database_once (bcrypt := StandIn.bcrypt)
              [] "2024-01-01 00:00:00" empty_store s1 Hrun)
    as (Hadmin & _ & Hlater & _).
  split; [exact Hadmin|].
  destruct (Hlater [] "2024-02-01 00:00:00") as (s2 & Hrun2 & Htables & _).
  exists s2. split; [exact Hrun2|exact Htables].
Defined.

Lemma default_admin_can_log_in_witness :
  @Bcrypt_verifies StandIn.bcrypt ∧
  user_named "admin" (DatabaseManagerExt.tables empty_store) = None ∧
  ∃ s1 : DatabaseManagerExt.store,
    DatabaseManagerExt.initialize_database (bcrypt := StandIn.bcrypt)
      [] "2024-01-01 00:00:00" empty_store = (Ok tt, s1) ∧
    ∃ (session : user_data) (a' : state),
      authenticate_user (bcrypt := StandIn.bcrypt)
        "admin" (str_literal "Admin123!")
        "2024-01-02 08:00:00" "2024-01-02 08:00:00"
        {| db := DatabaseManagerExt.tables s1; current_user := None;
           logged := [] |}
        = (Ok (Some session), a') ∧
      role session = "admin".
Proof.
  split; [exact standin_bcrypt_verifies|]. split; [reflexivity|].
  set (s1 := (DatabaseManagerExt.initialize_database
                (bcrypt := StandIn.bcrypt) [] "2024-01-01 00:00:00"
                empty_store).2).
  assert (DatabaseManagerExt.initialize_database (bcrypt := StandIn.bcrypt)
            [] "2024-01-01 00:00:00" empty_store = (Ok tt, s1))
    as Hrun by (vm_compute; reflexivity).
  exists s1. split; [exact Hrun|].
  destruct (default_admin_can_log_in (bcrypt := StandIn.bcrypt)
              [] "2024-01-01 00:00:00" "2024-01-02 08:00:00"
              "2024-01-02 08:00:00" empty_store s1
              {| db := DatabaseManagerExt.tables s1; current_user := None;
                 logged := [] |}
              standin_bcrypt_verifies eq_refl Hrun eq_refl)
    as (session & a' & Hlogin & Hrole & _).
  exists session, a'. split; [exact Hlogin|exact Hrole].
Defined.

(** ** Construction of the manager, again *)

Section restart.
Context {crypto : FernetLib}.

(** X19: a restart keeps the key: when [__init__] returned an object, the
    key file holds that object's key, and every later [__init__] on the
    files it left, whatever key the generator would give, returns the same
    object and writes nothing. *)
Theorem init_again_same_key (db_path : string) (generated : list byte)
    (fs fs' : gmap string node) (m : DatabaseManager.t) :
  __init__ db_path generated fs = (Ok m, fs') →
  fs' !! key_file = Some (File (encryption_key m)) ∧
  ∀ later : list byte, __init__ db_path later fs' = (Ok m, fs').
Proof.
  unfold __init__, bind at 1.
  destruct (_load_or_create_key generated fs) as [[key|e] fs1] eqn:Hkey;
    [|done].
  unfold bind at 1, lift, or_raise.
  destruct (Fernet_new key) as [c|] eqn:Hnew; [|done].
  unfold bind at 1.
  destruct (os_makedirs (dirname db_path) fs1) as [[[]|e] fs2] eqn:Hmk2;
    [|done].
  unfold ret. intros [= <- <-].
  cbn [encryption_key].
  assert (fs1 !! key_file = Some (File key) ∧
          fs1 !! dirname key_file = Some Dir) as [Hfile Hdir].
  { revert Hkey. unfold _load_or_create_key, bind at 1.
    destruct (os_makedirs (dirname key_file) fs) as [[[]|e] fs0] eqn:Hmk;
      [|done].
    destruct (os_makedirs_ok _ _ _ Hmk) as [Hd _].
    unfold bind, gets, modify, ret, raise.
    destruct (fs0 !! key_file) as [[content|]|] eqn:Hc.
    - intros [= <- <-]. done.
    - done.
    - intros [= <- <-]. split; [apply lookup_insert_eq|].
      rewrite lookup_insert_ne; [done|]. by vm_compute. }
  destruct (os_makedirs_ok _ _ _ Hmk2) as [Hd2 Hother].
  assert (dirname db_path ≠ key_file) as Hne.
  { intros Heq. revert Hmk2. unfold os_makedirs. rewrite Heq, Hfile.
    by case_decide. }
  assert (dirname db_path ≠ "") as Hnonempty.
  { intros Heq. revert Hmk2. unfold os_makedirs. by rewrite decide_True. }
  assert (fs2 !! key_file = Some (File key)) as Hfile2.
  { by rewrite Hother. }
  assert (fs2 !! dirname key_file = Some Dir) as Hdir2.
  { destruct (decide (dirname key_file = dirname db_path)) as [->|Hx];
      [done|]. by rewrite Hother. }
  split; [done|]. intros later.
  unfold __init__, bind at 1.
  rewrite (load_or_create_key_run later fs2 fs2), Hfile2.
  - unfold bind at 1, lift, or_raise. rewrite Hnew.
    unfold bind at 1. by rewrite (os_makedirs_again _ _ Hnonempty Hd2).
  - apply os_makedirs_again; [by vm_compute|done].
Qed.

End restart.

Lemma init_again_same_key_witness :
  ∃ fs' : gmap string node,
    __init__ (crypto := StandIn.fernet) "data/xray_system.db" fresh_key ∅
      = (Ok manager, fs') ∧
    ∀ later : list byte,
      __init__ (crypto := StandIn.fernet) "data/xray_system.db" later fs'
        = (Ok manager, fs').
Proof.
  set (fs' := (__init__ (crypto := StandIn.fernet) "data/xray_system.db"
                 fresh_key ∅).2).
  assert (__init__ (crypto := StandIn.fernet) "data/xray_system.db"
            fresh_key ∅ = (Ok manager, fs'))
    as Hrun by (vm_compute; reflexivity).
  exists fs'. split; [exact Hrun|].
  exact (proj2 (init_again_same_key (crypto := StandIn.fernet)
                  "data/xray_system.db" fresh_key ∅ fs' manager Hrun)).
Defined.

(** ** The role tables *)

Section roles.
Context {str : StrLib}.

(** X20: the three role tables of the authenticator agree: a role is
    offered by [get_available_roles] exactly when the permission table
    has a non-empty set for it, and exactly when it has a display name of
    its own; for every other role [get_user_role_display_name] falls back
    to the title-cased role and [has_permission] grants nothing. *)
Theorem role_tables_agree (r : string) :
  (r ∈ AuthManagerExt.get_available_roles ↔
   ∃ ps, permissions !! r = Some ps ∧ ps ≠ []) ∧
  (r ∈ AuthManagerExt.get_available_roles ↔
   is_Some (AuthManagerExt.role_names !! r)) ∧
  (r ∈ AuthManagerExt.get_available_roles →
   ∃ shown, AuthManagerExt.role_names !! r = Some shown ∧
            AuthManagerExt.get_user_role_display_name r = shown) ∧
  (r ∉ AuthManagerExt.get_available_roles →
   AuthManagerExt.get_user_role_display_name r = str_title r ∧
   ∀ (s : state) (u : user_data) (p : string),
     current_user s = Some u → role u = r →
     has_permission p s = (Ok false, s)).
Proof.
  assert (r ∈ AuthManagerExt.get_available_roles ↔
          r = "admin" ∨ r = "radiologist" ∨ r = "technician") as Hroles.
  { unfold AuthManagerExt.get_available_roles.
    rewrite !elem_of_cons, elem_of_nil. tauto. }
  assert (r ∈ AuthManagerExt.get_available_roles ↔
          ∃ ps, permissions !! r = Some ps ∧ ps ≠ []) as Hperm.
  { rewrite Hroles. split.
    - intros [-> | [-> | ->]]; (eexists; split; [reflexivity|done]).
    - intros (ps & Hps & _). by apply permissions_lookup in Hps. }
  assert (r ∈ AuthManagerExt.get_available_roles ↔
          is_Some (AuthManagerExt.role_names !! r)) as Hnames.
  { rewrite Hroles. split.
    - intros [-> | [-> | ->]]; by eexists.
    - intros [shown Hl]. unfold AuthManagerExt.role_names in Hl.
      apply lookup_insert_Some in Hl as [[<- _]|[_ Hl]]; [by left|].
      apply lookup_insert_Some in Hl as [[<- _]|[_ Hl]]; [by right; left|].
      apply lookup_insert_Some in Hl as [[<- _]|[_ Hl]]; [by right; right|].
      done. }
  split; [exact Hperm|]. split; [exact Hnames|]. split.
  - intros [shown Hl]%Hnames. exists shown. split; [done|].
    unfold AuthManagerExt.get_user_role_display_name. by rewrite Hl.
  - intros Hout. split.
    + unfold AuthManagerExt.get_user_role_display_name.
      destruct (AuthManagerExt.role_names !! r) as [shown|] eqn:Hl; [|done].
      destruct Hout. apply Hnames. by eexists.
    + intros s u p Hu Hr. rewrite has_permission_run, Hu, Hr.
      destruct (permissions !! r) as [ps|] eqn:Hps.
      * destruct Hout. apply Hroles. by apply permissions_lookup in Hps.
      * done.
Qed.

End roles.

(** ** Who the audit listing names *)

Lemma sql_limit_all {A} (limit : Z) (rows : list A) :
  (limit < 0)%Z ∨ (length rows ≤ Z.to_nat limit)%nat →
  sql_limit limit rows = rows.
Proof.
  intros Hl. unfold sql_limit. case_decide; [done|].
  destruct Hl as [?|Hl]; [lia|]. by apply take_ge.
Qed.

Lemma audit_row_listed (limit : Z) (d : database) (al : AuditLogs.row) :
  int64 limit →
  (limit < 0)%Z ∨ (length (audit_logs d) ≤ Z.to_nat limit)%nat →
  al ∈ audit_logs d →
  ∃ logs, get_audit_logs limit d = (Ok logs, d) ∧
          audit_log_of_row d al ∈ logs ∧
          length logs = length (audit_logs d).
Proof.
  intros Hin Hl Hal. eexists.
  split; [by rewrite get_audit_logs_run, decide_True|].
  rewrite sql_limit_all
    by (by rewrite (Permutation_length (merge_sort_Permutation _ _))).
  split.
  - apply list_elem_of_fmap_2. by rewrite merge_sort_Permutation.
  - by rewrite length_fmap, (Permutation_length (merge_sort_Permutation _ _)).
Qed.

Section audit_listing.
Context {crypto : FernetLib} {json : JsonLib}.

(** X21: the audit listing does not say who added a patient: after an
    [add_patient] that returned, a listing whose limit fits a signed 64-bit
    integer and does not cut it short holds one entry more than the log
    had, and the entry of the new record, [CREATE] of a [patient] with the
    record's key, is shown under the user name [System]. *)
Theorem added_patient_listed_as_system (self : t)
    (data : gmap string pyval) (nonce : list byte) (now now_audit : string)
    (d d1 : database) (pid limit : Z) :
  add_patient self data nonce now now_audit d = (Ok pid, d1) →
  int64 limit →
  (limit < 0)%Z ∨ (length (audit_logs d1) ≤ Z.to_nat limit)%nat →
  ∃ (logs : list audit_log) (entry : audit_log),
    get_audit_logs limit d1 = (Ok logs, d1) ∧
    length logs = S (length (audit_logs d)) ∧
    entry ∈ logs ∧
    log_username entry = "System" ∧
    log_action entry = "CREATE" ∧
    log_resource_type entry = "patient" ∧
    log_resource_id entry = pid ∧
    log_timestamp entry = now_audit.
Proof.
  intros Hadd Hin Hl.
  apply add_patient_ok in Hadd
    as (enc & key & ext & _ & _ & _ & _ & Hpid & _ & ->).
  cbv zeta in Hpid.
  set (d0 := with_patient d (new_patient d ext enc now)) in *.
  destruct (audit_row_listed limit
              (with_audit d0 (create_entry d0 pid now_audit))
              (create_entry d0 pid now_audit) Hin Hl)
    as (logs & Hrun & Hlisted & Hlen).
  { cbn [with_audit audit_logs]. apply elem_of_app. right.
    by apply list_elem_of_singleton. }
  exists logs, (audit_log_of_row (with_audit d0 (create_entry d0 pid now_audit))
                  (create_entry d0 pid now_audit)).
  split; [exact Hrun|]. split.
  { rewrite Hlen. cbn [with_audit audit_logs]. rewrite length_app. simpl.
    lia. }
  split; [exact Hlisted|]. by repeat split.
Qed.

End audit_listing.

(** X22: the audit listing names the technician of an image only when the
    [users] table knows the key: nothing checks [technician_id] against
    the table, so [add_xray_image] stores the image for every patient key
    and technician key that fit a signed 64-bit integer; in a listing
    whose limit fits too and does not cut it short, the entry of the image
    is shown under the user name of the row with that key, and under
    [System] when no row has it or its name is empty. *)
Theorem added_image_listed_under_technician (patient_id : Z)
    (image_path position body_part : string) (technician_id : Z)
    (notes now now_audit : string) (s : DatabaseManagerExt.store)
    (limit : Z) :
  int64 patient_id → int64 technician_id → int64 limit →
  (limit < 0)%Z ∨
  (S (length (audit_logs (DatabaseManagerExt.tables s))) ≤ Z.to_nat limit)%nat →
  ∃ (image_id : Z) (s' : DatabaseManagerExt.store)
    (logs : list audit_log) (entry : audit_log),
    DatabaseManagerExt.add_xray_image patient_id image_path position
      body_part technician_id notes now now_audit s = (Ok image_id, s') ∧
    get_audit_logs limit (DatabaseManagerExt.tables s')
      = (Ok logs, DatabaseManagerExt.tables s') ∧
    entry ∈ logs ∧
    log_action entry = "CREATE" ∧
    log_resource_type entry = "xray_image" ∧
    log_resource_id entry = image_id ∧
    (∀ u, user_with_id technician_id (DatabaseManagerExt.tables s) = Some u →
          Users.username u ≠ "" → log_username entry = Users.username u) ∧
    ((user_with_id technician_id (DatabaseManagerExt.tables s) = None ∨
      ∃ u, user_with_id technician_id (DatabaseManagerExt.tables s) = Some u ∧
           Users.username u = "") →
     log_username entry = "System").
Proof.
  intros Hp Ht Hin Hl. rewrite add_xray_image_run. cbv zeta.
  rewrite decide_True by done.
  set (row := DatabaseManagerExt.new_image s patient_id image_path position
                body_part technician_id notes now).
  set (al := new_audit_log (DatabaseManagerExt.tables s) (Some technician_id)
               "CREATE" "xray_image" (XrayImages.id row)
               ("New X-ray image added: " +:+ body_part +:+ " - "
                +:+ position) now_audit).
  destruct (audit_row_listed limit
              (with_audit (DatabaseManagerExt.tables s) al) al Hin)
    as (logs & Hrun & Hlisted & _).
  { cbn [with_audit audit_logs]. rewrite length_app. simpl.
    destruct Hl as [?|?]; [by left|right; lia]. }
  { cbn [with_audit audit_logs]. apply elem_of_app. right.
    by apply list_elem_of_singleton. }
  eexists _, _, logs, _. split; [done|].
  cbn [DatabaseManagerExt.tables]. split; [exact Hrun|].
  split; [exact Hlisted|]. do 3 (split; [done|]).
  unfold audit_log_of_row, joined_username.
  cbn [log_username al new_audit_log AuditLogs.user_id].
  change (user_with_id technician_id
            (with_audit (DatabaseManagerExt.tables s) al))
    with (user_with_id technician_id (DatabaseManagerExt.tables s)).
  split.
  - intros u -> Hname. by rewrite decide_False.
  - intros [->|(u & -> & Hname)]; [done|]. by rewrite decide_True.
Qed.

Lemma added_patient_listed_as_system_witness :
  put jane = (Ok 1%Z, (put jane).2) ∧
  int64 (-1) ∧
  ((-1 < 0)%Z ∨ (length (audit_logs (put jane).2) ≤ Z.to_nat (-1))%nat) ∧
  ∃ (logs : list audit_log) (entry : audit_log),
    get_audit_logs (-1) (put jane).2 = (Ok logs, (put jane).2) ∧
    length logs = 1%nat ∧
    entry ∈ logs ∧
    log_username entry = "System".
Proof.
  assert (int64 (-1)) as Hin by (unfold int64; lia).
  assert ((-1 < 0)%Z ∨ (length (audit_logs (put jane).2) ≤ Z.to_nat (-1))%nat)
    as Hl by (left; lia).
  split; [exact put_jane_stored|]. split; [exact Hin|]. split; [exact Hl|].
  destruct (added_patient_listed_as_system
              (crypto := StandIn.fernet) (json := StandIn.json)
              manager jane [] "2024-01-01 10:00:00" "2024-01-01 10:00:01"
              empty_db (put jane).2 1 (-1) put_jane_stored Hin Hl)
    as (logs & entry & Hrun & Hlen & Hlisted & Hname & _).
  exists logs, entry. split; [exact Hrun|]. split; [exact Hlen|].
  split; [exact Hlisted|exact Hname].
Defined.

Lemma added_image_listed_under_technician_witness :
  int64 1 ∧ int64 7 ∧ int64 100 ∧
  ((100 < 0)%Z ∨
   (S (length (audit_logs (DatabaseManagerExt.tables empty_store)))
    ≤ Z.to_nat 100)%nat) ∧
  user_with_id 7 (DatabaseManagerExt.tables empty_store) = None ∧
  ∃ (image_id : Z) (s' : DatabaseManagerExt.store)
    (logs : list audit_log) (entry : audit_log),
    DatabaseManagerExt.add_xray_image 1 "images/1.png" "AP" "chest" 7 ""
      "2024-01-01 10:00:00" "2024-01-01 10:00:01" empty_store
      = (Ok image_id, s') ∧
    get_audit_logs 100 (DatabaseManagerExt.tables s')
      = (Ok logs, DatabaseManagerExt.tables s') ∧
    entry ∈ logs ∧
    log_username entry = "System".
Proof.
  assert (int64 1) as H1 by (unfold int64; lia).
  assert (int64 7) as H7 by (unfold int64; lia).
  assert (int64 100) as H100 by (unfold int64; lia).
  assert ((100 < 0)%Z ∨
          (S (length (audit_logs (DatabaseManagerExt.tables empty_store)))
           ≤ Z.to_nat 100)%nat) as Hl by (right; simpl; lia).
  split; [exact H1|]. split; [exact H7|]. split; [exact H100|].
  split; [exact Hl|]. split; [reflexivity|].
  destruct (added_image_listed_under_technician 1 "images/1.png" "AP" "chest"
              7 "" "2024-01-01 10:00:00" "2024-01-01 10:00:01" empty_store
              100 H1 H7 H100 Hl)
    as (image_id & s' & logs & entry & Hadd & Hrun & Hlisted & _ & _ & _ & _
        & Hsystem).
  exists image_id, s', logs, entry. split; [exact Hadd|].
  split; [exact Hrun|]. split; [exact Hlisted|].
  apply Hsystem. left. reflexivity.
Defined.

(** ** Both branches, on concrete inputs *)


Lemma get_audit_logs_newest_first_witness :
  int64 2 ∧ ¬ int64 (2 ^ 63) ∧
  (∃ logs, get_audit_logs 2 skewed_ledger = (Ok logs, skewed_ledger) ∧
           length logs = 2%nat) ∧
  get_audit_logs (2 ^ 63) skewed_ledger = (Raise OverflowError, skewed_ledger).
Proof.
  assert (int64 2) as Hin by (unfold int64; lia).
  assert (¬ int64 (2 ^ 63)) as Hout by (unfold int64; lia).
  split; [exact Hin|]. split; [exact Hout|]. split.
  - destruct (get_audit_logs_newest_first 2 skewed_ledger) as [Hfits _].
    destruct (Hfits Hin) as (logs & kept & dropped & Hrun & _ & _ & _ & _
                             & Hlen).
    exists logs. split; [exact Hrun|exact Hlen].
  - exact (proj2 (get_audit_logs_newest_first (2 ^ 63) skewed_ledger) Hout).
Defined.

Lemma authenticate_user_spec_witness :
  user_named "alice" (db logged_out) = Some alice_row ∧
  Users.is_active alice_row = true ∧
  (∃ pw, Utf8.encode (StandIn.text "Sup3r$ecret!") = Some pw ∧
         bcrypt_checkpw (BcryptLib := StandIn.bcrypt) pw
           (Users.password_hash alice_row) = Some true) ∧
  ∃ s',
    authenticate_user (bcrypt := StandIn.bcrypt) "alice"
      (StandIn.text "Sup3r$ecret!") "2024-01-02 08:00:00"
      "2024-01-02 08:00:00" logged_out
    = (Ok (Some (session_of alice_row "2024-01-02 08:00:00")), s').
Proof.
  set (pw := default [] (Utf8.encode (StandIn.text "Sup3r$ecret!"))).
  assert (Utf8.encode (StandIn.text "Sup3r$ecret!") = Some pw)
    as Hpw by (vm_compute; reflexivity).
  assert (bcrypt_checkpw (BcryptLib := StandIn.bcrypt) pw
            (Users.password_hash alice_row) = Some true)
    as Hcheck by (vm_compute; reflexivity).
  split; [reflexivity|]. split; [reflexivity|].
  split; [exists pw; split; [exact Hpw|exact Hcheck]|].
  destruct (authenticate_user_spec (bcrypt := StandIn.bcrypt) "alice"
              (StandIn.text "Sup3r$ecret!") "2024-01-02 08:00:00"
              "2024-01-02 08:00:00" logged_out)
    as (outcome & s' & Hrun & _ & _ & _ & _ & _ & _ & _ & Hsucc).
  exists s'. rewrite Hrun.
  by rewrite (Hsucc alice_row pw eq_refl eq_refl Hpw Hcheck).
Defined.

Lemma get_patient_xrays_newest_first_witness :
  int64 1 ∧ ¬ int64 (2 ^ 63) ∧
  (∃ rows,
     DatabaseManagerExt.get_patient_xrays 1 empty_store
       = (Ok (DatabaseManagerExt.xray_of_row <$> rows), empty_store)) ∧
  DatabaseManagerExt.get_patient_xrays (2 ^ 63) empty_store
    = (Raise OverflowError, empty_store).
Proof.
  assert (int64 1) as Hin by (unfold int64; lia).
  assert (¬ int64 (2 ^ 63)) as Hout by (unfold int64; lia).
  split; [exact Hin|]. split; [exact Hout|]. split.
  - destruct (get_patient_xrays_newest_first 1 empty_store) as [Hfits _].
    destruct (Hfits Hin) as (rows & Hrun & _).
    exists rows. exact Hrun.
  - exact (proj2 (get_patient_xrays_newest_first (2 ^ 63) empty_store) Hout).
Defined.

Lemma added_image_is_listed_witness :
  int64 1 ∧ int64 7 ∧ ¬ (int64 (2 ^ 63) ∧ int64 7) ∧
  (∃ (image_id : Z) (s' : DatabaseManagerExt.store)
     (listing : list DatabaseManagerExt.xray),
     DatabaseManagerExt.add_xray_image 1 "images/1.png" "AP" "chest" 7 ""
       "2024-01-01 10:00:00" "2024-01-01 10:00:01" empty_store
       = (Ok image_id, s') ∧
     DatabaseManagerExt.get_patient_xrays 1 s' = (Ok listing, s')) ∧
  DatabaseManagerExt.add_xray_image (2 ^ 63) "images/1.png" "AP" "chest" 7 ""
    "2024-01-01 10:00:00" "2024-01-01 10:00:01" empty_store
    = (Raise OverflowError, empty_store).
Proof.
  assert (int64 1) as H1 by (unfold int64; lia).
  assert (int64 7) as H7 by (unfold int64; lia).
  assert (¬ (int64 (2 ^ 63) ∧ int64 7)) as Hout by (unfold int64; lia).
  split; [exact H1|]. split; [exact H7|]. split; [exact Hout|]. split.
  - destruct (added_image_is_listed 1 "images/1.png" "AP" "chest" 7 ""
                "2024-01-01 10:00:00" "2024-01-01 10:00:01" empty_store)
      as [Hfits _].
    destruct (Hfits H1 H7) as (image_id & s' & listing & entry & Hadd & _
                               & Hlist & _).
    exists image_id, s', listing. split; [exact Hadd|exact Hlist].
  - exact (proj2 (added_image_is_listed (2 ^ 63) "images/1.png" "AP" "chest"
                    7 "" "2024-01-01 10:00:00" "2024-01-01 10:00:01"
                    empty_store) Hout).
Defined.

Lemma update_image_annotations_always_audited_witness :
  int64 5 ∧ int64 3 ∧ ¬ (int64 5 ∧ int64 (2 ^ 70)) ∧
  (5%Z ∉ XrayImages.id <$> DatabaseManagerExt.xray_images empty_store) ∧
  (∃ (s' : DatabaseManagerExt.store) (entry : AuditLogs.row),
     DatabaseManagerExt.update_image_annotations 5 "fracture" 3
       "2024-01-01 10:00:01" empty_store = (Ok tt, s') ∧
     audit_logs (DatabaseManagerExt.tables s')
       = audit_logs (DatabaseManagerExt.tables empty_store) ++ [entry] ∧
     DatabaseManagerExt.xray_images s'
       = DatabaseManagerExt.xray_images empty_store) ∧
  DatabaseManagerExt.update_image_annotations 5 "fracture" (2 ^ 70)
    "2024-01-01 10:00:01" empty_store = (Raise OverflowError, empty_store).
Proof.
  assert (int64 5) as H5 by (unfold int64; lia).
  assert (int64 3) as H3 by (unfold int64; lia).
  assert (¬ (int64 5 ∧ int64 (2 ^ 70))) as Hout by (unfold int64; lia).
  assert (5%Z ∉ XrayImages.id <$> DatabaseManagerExt.xray_images empty_store)
    as Hnone by (simpl; apply not_elem_of_nil).
  split; [exact H5|]. split; [exact H3|]. split; [exact Hout|].
  split; [exact Hnone|]. split.
  - destruct (update_image_annotations_always_audited 5 "fracture" 3
                "2024-01-01 10:00:01" empty_store) as [Hfits _].
    destruct (Hfits H5 H3) as (s' & entry & Hrun & Hlog & _ & _ & _ & Hsame
                               & _).
    exists s', entry. split; [exact Hrun|]. split; [exact Hlog|].
    exact (Hsame Hnone).
  - exact (proj2 (update_image_annotations_always_audited 5 "fracture"
                    (2 ^ 70) "2024-01-01 10:00:01" empty_store) Hout).
Defined.
